(** * digitalSignatureDeclaration: the declaration pipeline, embedded and verified

    A shallow embedding of [signing.py] and [utils.py].

    - A Python [str] is a sequence of Unicode code points: [list N].
      Slicing with [[::-1]] is list reversal, [+] and f-strings are [++].
    - Python floats are idealised as exact rationals ([Qc]).
    - The file system, the clock and the installed tools form a [World]
      that every stage reads and writes through a small state-and-error
      monad.  Files are regular files keyed by their path string; paths are
      joined the POSIX way.
    - What only the libraries know (the Unicode case table, the font
      metric, the MediaBox pdfrw gives a merged page, the pixel size
      pdf2image gives a page, the text PyPDF2 extracts) enters as the
      variables of [Section Pipeline]. *)

From Stdlib Require Import QArith Qcanon Qround.
From Stdlib Require Ascii String.
Import String.StringSyntax.
From stdpp Require Import base option list gmap.

Local Open Scope N_scope.

(** ** Python strings *)

Abbreviation pystr := (list N).

(** ASCII literals are written as Rocq strings and read as code points. *)
Fixpoint of_ascii (s : String.string) : pystr :=
  match s with
  | String.EmptyString => []
  | String.String a s' => Ascii.N_of_ascii a :: of_ascii s'
  end.
Delimit Scope string_scope with string.
Arguments of_ascii s%_string.

(** [s.startswith(p)] *)
Definition startswith (s p : pystr) : bool := bool_decide (p `prefix_of` s).

(** [s.find(sub)]: index of the leftmost occurrence. *)
Fixpoint py_find (sub s : pystr) : option nat :=
  if startswith s sub then Some 0%nat
  else match s with
       | [] => None
       | _ :: s' => S <$> py_find sub s'
       end.

(** [sub in s] *)
Fixpoint py_in (sub s : pystr) : bool :=
  startswith s sub ||
  match s with
  | [] => false
  | _ :: s' => py_in sub s'
  end.

(** [sep.join(parts)] *)
Fixpoint py_join (sep : pystr) (parts : list pystr) : pystr :=
  match parts with
  | [] => []
  | [p] => p
  | p :: rest => p ++ sep ++ py_join sep rest
  end.

(** [s.replace(old, new)] for a non-empty [old]: one left-to-right scan;
    [skip] counts the characters of the current match still to be dropped,
    so matches never overlap. *)
Fixpoint replace_scan (old new s : pystr) (skip : nat) : pystr :=
  match s with
  | [] => []
  | c :: s' =>
      match skip with
      | S k => replace_scan old new s' k
      | O =>
          if startswith s old
          then new ++ replace_scan old new s' (length old - 1)%nat
          else c :: replace_scan old new s' 0%nat
      end
  end.

(** [s.replace(old, new)]; an empty [old] matches before every character
    and at the end. *)
Definition py_replace (s old new : pystr) : pystr :=
  match old with
  | [] => new ++ concat (map (fun c => c :: new) s)
  | _ :: _ => replace_scan old new s 0%nat
  end.

(** ** signing.py: process_hebrew_text *)

Definition process_hebrew_text (line current_date : pystr) : pystr :=
  let reversed_line := reverse line in
  let reversed_line := py_replace reversed_line (reverse current_date) current_date in
  reversed_line.

(** The reference wording of the specification: reverse the whole line, then
    find the reversed date, restore it to its natural form, and go on after
    it.  [fuel] bounds the number of restorations. *)
Fixpoint restore_date (fuel : nat) (rdate date r : pystr) : pystr :=
  match fuel with
  | O => r
  | S fuel' =>
      match py_find rdate r with
      | None => r
      | Some i =>
          take i r ++ date ++ restore_date fuel' rdate date (drop (i + length rdate)%nat r)
      end
  end.

Definition reverse_preserving_date (line date : pystr) : pystr :=
  let r := reverse line in
  match date with
  | [] => r
  | _ :: _ => restore_date (length r) (reverse date) date r
  end.

(** [sub] occurs in [s] as a contiguous substring. *)
Definition occurs (sub s : pystr) : Prop := exists a b, s = a ++ sub ++ b.

(** ** Text Composer: the vocabulary *)

(** [str.lower()] on an ASCII code point. *)
Definition ascii_lower (c : N) : N :=
  if (65 <=? c) && (c <=? 90) then c + 32 else c.

(** One inner dict of [gender_terms]: its seven keys are fixed. *)
Record Terms := mkTerms {
  title : pystr; known : pystr; warned : pystr; pronoun : pystr;
  expected : pystr; confirmed : pystr; signed : pystr
}.

Definition male_terms : Terms := {|
  title := [1502; 1512];                           (* mr *)
  known := [1492; 1502; 1493; 1499; 1512];         (* hmwkr *)
  warned := [1513; 1492; 1493; 1494; 1492; 1512];  (* shwzhr *)
  pronoun := [1506; 1500; 1497; 1493];             (* 'lyw *)
  expected := [1510; 1508; 1493; 1497];            (* tspwy *)
  confirmed := [1488; 1497; 1513; 1512];           (* 'yshr *)
  signed := [1495; 1514; 1501]                     (* htm *)
|}.

Definition female_terms : Terms := {|
  title := [1490; 1489];
  known := [1492; 1502; 1493; 1499; 1512; 1514];
  warned := [1513; 1492; 1493; 1494; 1492; 1512; 1492];
  pronoun := [1506; 1500; 1497; 1492];
  expected := [1510; 1508; 1493; 1497; 1492];
  confirmed := [1488; 1497; 1513; 1512; 1492];
  signed := [1495; 1514; 1502; 1492]
|}.

#[global] Instance Terms_inhabited : Inhabited Terms := populate male_terms.

Definition gender_terms : gmap pystr Terms :=
  {[ of_ascii "male" := male_terms; of_ascii "female" := female_terms ]}.

(** [d.get(k, dflt)] *)
Definition dict_get {V : Type} (d : gmap pystr V) (k : pystr) (dflt : V) : V :=
  default dflt (d !! k).

(** The fixed pieces of the eight lines. *)
Definition line0_head : pystr :=
  [32; 1492; 1512; 1497; 1504; 1497; 32; 1502; 1488; 1513; 1512; 1514; 32; 1499; 1497; 32;
   1489; 1497; 1493; 1501; 32].
Definition line0_tail : pystr :=
  [32; 1492; 1493; 1508; 1497; 1506; 32; 1489; 1508; 1504; 1497; 32].
Definition line1 : pystr :=
  [1506; 1493; 34; 1491; 32; 1502; 1497; 1512; 1497; 32; 1512; 1494; 32; 1489; 1502; 1513;
   1512; 1491; 1497; 32; 1513; 1489; 1512; 1495; 1493; 1489; 32; 1492; 1513; 1512; 1493;
   1503; 32; 49; 32; 1511; 1512; 1497; 1497; 1514; 32; 1513; 1491; 1492; 32; 1492; 1514;
   1506; 1493; 1508; 1492].
Definition line2_id : pystr := [32; 1514; 46; 1494; 32].
Definition line2_tail : pystr := [32; 1500; 1497; 32; 1488; 1497; 1513; 1497; 1514; 44].
Definition line3_head : pystr := [1493; 1500; 1488; 1495; 1512; 32].
Definition line3_mid : pystr := [32; 1499; 1497; 32].
Definition line3_tail : pystr :=
  [32; 1500; 1488; 1502; 1512; 32; 1488; 1514; 32; 1492; 1488; 1502; 1514; 32; 1488; 1495;
   1512; 1514; 32; 1497; 1492; 1497; 1492].
Definition line4_tail : pystr :=
  [32; 1500; 1506; 1493; 1504; 1513; 1497; 1501; 32; 1492; 1511; 1489; 1493; 1506; 1497;
   1501; 32; 1489; 1495; 1493; 1511; 32; 1488; 1501; 32; 1500; 1488; 32; 1497; 1506; 1513;
   1492; 32; 1499; 1503; 44].
Definition line5_mid : pystr :=
  [32; 1488; 1514; 32; 1504; 1499; 1493; 1504; 1493; 1514; 32; 1492; 1492; 1510; 1492; 1512;
   1492; 32; 41; 32].
Definition line5_tail : pystr := [32; 1506; 1500; 1497; 1492; 32; 1489; 1508; 1504; 1497; 32; 40].
Definition line6 : pystr := replicate 38 42.
Definition line7 : pystr :=
  [1502; 1497; 1512; 1497; 32; 1512; 1494; 32; 1497; 1493; 1511; 1500; 32; 1502; 46; 1512;
   32; 50; 51; 49; 52; 53].

(** The eight lines for a chosen term set (the list literal of
    [generate_declaration_text]). *)
Definition declaration_text_lines (terms : Terms)
    (current_date declarator_name id_number : pystr) : list pystr :=
  [ line0_head ++ current_date ++ line0_tail;
    line1;
    title terms ++ [32] ++ declarator_name ++ line2_id ++ id_number ++ [32]
      ++ known terms ++ line2_tail;
    line3_head ++ warned terms ++ line3_mid ++ pronoun terms ++ line3_tail;
    expected terms ++ line4_tail;
    confirmed terms ++ line5_mid ++ signed terms ++ line5_tail;
    line6;
    line7 ].

(** [g] is [v] up to the capitalisation of its ASCII letters. *)
Definition case_variant (g v : pystr) : Prop :=
  Forall2 (fun c c' => c = c' \/ (97 <= c' <= 122 /\ c + 32 = c')) g v.

(** ** utils.py: the marker substrings *)

Definition company_marker : pystr :=
  [1508; 1512; 1496; 1497; 32; 1492; 1495; 1489; 1512; 1492; 32; 1492; 1513; 1493; 1499;
   1512; 1514].
Definition foreigner_marker : pystr := [1494; 1512].

(** The loop of [detect_declaration_type] over the extracted text of the
    pages, in page order. *)
Fixpoint detect_in_texts (texts : list pystr) : pystr :=
  match texts with
  | [] => of_ascii "israeli"
  | text :: rest =>
      if py_in company_marker text then of_ascii "company"
      else if py_in foreigner_marker text then of_ascii "foreigner"
      else detect_in_texts rest
  end.

(** A page text that holds neither marker. *)
Definition no_marker (text : pystr) : Prop :=
  ~ occurs company_marker text /\ ~ occurs foreigner_marker text.

(** ** Documents and images *)

Abbreviation path := (list N).

(** A PDF page is its MediaBox size and what is painted on it, bottom layer
    first.  A PIL image is its pixel size, whether its mode can serve as a
    paste mask, and how its pixels came about. *)
Local Unset Elimination Schemes.
Inductive Page : Type :=
  | mkPage (mediabox : Qc * Qc) (content : list Layer)
with Layer : Type :=
  | LOriginal (tag : N)                           (* content stream of a source page *)
  | LText (x y : Qc) (s : pystr)                  (* drawString in Arial 12 *)
  | LScaled (sx sy : Qc) (inner : list Layer)     (* content under a scaling *)
  | LBitmap (im : Image)                          (* an image filling the page *)
with Image : Type :=
  | mkImage (size : Z * Z) (maskable : bool) (px : Pixels)
with Pixels : Type :=
  | PxFile (p : path)                             (* decoded from a file *)
  | PxRaster (pg : Page)                          (* a rasterised page *)
  | PxResize (src : Pixels)                       (* resampled to the image's size *)
  | PxPaste (base : Pixels) (src : Image) (box : Z * Z) (mask : Image).
Local Set Elimination Schemes.

Definition mediabox (pg : Page) : Qc * Qc := let 'mkPage mb _ := pg in mb.
Definition content (pg : Page) : list Layer := let 'mkPage _ c := pg in c.
Definition size (im : Image) : Z * Z := let 'mkImage sz _ _ := im in sz.
Definition maskable (im : Image) : bool := let 'mkImage _ m _ := im in m.
Definition px (im : Image) : Pixels := let 'mkImage _ _ p := im in p.

Inductive FileData : Type :=
  | FPdf (pages : list Page)
  | FImage (im : Image)
  | FOther.

Inductive FsEvent : Type :=
  | EvWrite (p : path)
  | EvRemove (p : path).

(** Everything outside the program that a run reads or changes. *)
Record World := mkWorld {
  files : gmap path FileData;       (* regular files by path *)
  write_denied : gset path;         (* paths that cannot be created or overwritten *)
  environ : gmap pystr pystr;       (* os.environ *)
  local_dir : path;                 (* config.local_dir() *)
  arial_ttf : bool;                 (* ReportLab can load 'Arial.ttf' *)
  poppler_dirs : gset path;         (* folders holding a working poppler *)
  today : pystr;                    (* date.today().strftime("%d-%m-%Y") *)
  fslog : list FsEvent              (* file-system effects so far, oldest first *)
}.

Inductive PyError : Type :=
  | TTFError | FileNotFoundError | PdfReadError | UnidentifiedImageError
  | IndexError | KeyError | ValueError | OSError | ZeroDivisionError
  | PDFInfoNotInstalledError.

(** ** The state-and-exception monad of a run *)

Definition Py (A : Type) : Type := World -> (PyError + A) * World.

Definition ret {A : Type} (a : A) : Py A := fun w => (inr a, w).
Definition raise {A : Type} (e : PyError) : Py A := fun w => (inl e, w).
Definition bind {A B : Type} (m : Py A) (k : A -> Py B) : Py B :=
  fun w => match m w with
           | (inl e, w') => (inl e, w')
           | (inr a, w') => k a w'
           end.

Declare Scope py_scope.
Delimit Scope py_scope with py.
Notation "x <- m ;; k" := (bind m (fun x => k))
  (at level 20, m at level 99, k at level 200, only parsing) : py_scope.
Notation "m ;; k" := (bind m (fun _ => k))
  (at level 100, k at level 200, only parsing, right associativity) : py_scope.
Local Open Scope py_scope.

Definition set_files (f : gmap path FileData -> gmap path FileData) (ev : FsEvent)
    (w : World) : World :=
  {| files := f (files w); write_denied := write_denied w; environ := environ w;
     local_dir := local_dir w; arial_ttf := arial_ttf w; poppler_dirs := poppler_dirs w;
     today := today w; fslog := fslog w ++ [ev] |}.

(** Opening a PDF for reading. *)
Definition read_pdf (p : path) : Py (list Page) := fun w =>
  match files w !! p with
  | Some (FPdf pages) => (inr pages, w)
  | Some _ => (inl PdfReadError, w)
  | None => (inl FileNotFoundError, w)
  end.

(** [Image.open(p)] *)
Definition image_open (p : path) : Py Image := fun w =>
  match files w !! p with
  | Some (FImage im) => (inr im, w)
  | Some _ => (inl UnidentifiedImageError, w)
  | None => (inl FileNotFoundError, w)
  end.

(** Creating or overwriting the file at [p]. *)
Definition write_file (p : path) (d : FileData) : Py unit := fun w =>
  if decide (p ∈ write_denied w) then (inl OSError, w)
  else (inr tt, set_files (insert p d) (EvWrite p) w).

Definition os_path_isfile (p : path) : Py bool := fun w =>
  (inr (bool_decide (is_Some (files w !! p))), w).

Definition os_remove (p : path) : Py unit := fun w =>
  match files w !! p with
  | Some _ => (inr tt, set_files (delete p) (EvRemove p) w)
  | None => (inl FileNotFoundError, w)
  end.

(** [os.getenv(k, dflt)] *)
Definition os_getenv (k dflt : pystr) : Py pystr := fun w =>
  (inr (default dflt (environ w !! k)), w).

(** [os.path.join(a, b)], POSIX flavour. *)
Definition os_path_join (a b : path) : path :=
  if startswith b [47] then b
  else match last a with
       | None => b
       | Some c => if decide (c = 47) then a ++ b else a ++ [47] ++ b
       end.

(** [seq[0]] *)
Definition index0 {A : Type} (l : list A) : Py A :=
  match l with
  | [] => raise IndexError
  | x :: _ => ret x
  end.

(** [d[k]] *)
Definition dict_index {V : Type} (d : gmap pystr V) (k : pystr) : Py V :=
  match d !! k with
  | Some v => ret v
  | None => raise KeyError
  end.

(** Float division. *)
Definition py_div (a b : Qc) : Py Qc :=
  if decide (b = 0%Qc) then raise ZeroDivisionError else ret (a / b)%Qc.

(** ** Image and page primitives of the libraries *)

(** [im.resize((w, h))] *)
Definition resize (im : Image) (wh : Z * Z) : Image :=
  mkImage wh (maskable im) (PxResize (px im)).

(** [base.paste(src, box, mask)] *)
Definition paste (base src : Image) (box : Z * Z) (mask : Image) : Py Image :=
  if maskable mask
  then ret (mkImage (size base) (maskable base) (PxPaste (px base) src box mask))
  else raise ValueError.

Definition Qc_of_Z (z : Z) : Qc := Q2Qc (inject_Z z).

(** A page of a PDF saved by PIL at its default 72 dpi: one point per
    pixel, the bitmap filling the page. *)
Definition page_of_image (im : Image) : Page :=
  mkPage (Qc_of_Z (fst (size im)), Qc_of_Z (snd (size im))) [LBitmap im].

(** PyPDF2 [page.scale(sx, sy)] and [page.scale_by(factor)] *)
Definition scale (pg : Page) (sx sy : Qc) : Page :=
  mkPage ((fst (mediabox pg) * sx)%Qc, (snd (mediabox pg) * sy)%Qc)
         [LScaled sx sy (content pg)].
Definition scale_by (pg : Page) (factor : Qc) : Page := scale pg factor factor.

(** reportlab.lib.pagesizes.letter *)
Definition letter : Qc * Qc := (Qc_of_Z 612, Qc_of_Z 792).

Definition desired_width : Qc := Q2Qc (59528 # 100).
Definition desired_height : Qc := Q2Qc (84189 # 100).

(** ** Stand-ins for the library black boxes, used to run the model *)

(** Case table of scripts without case: the code point is kept. *)
Definition caseless_lower (whole : pystr) (i : nat) : pystr :=
  match whole !! i with Some c => [c] | None => [] end.

(** A font metric: six units per character. *)
Definition monospace_width (s : pystr) : Qc := Qc_of_Z (6 * Z.of_nat (length s)).

Definition Qc_max (a b : Qc) : Qc := if decide (a <= b)%Qc then b else a.

(** The smallest box at the origin enclosing both pages. *)
Definition enclosing_box (a b : Qc * Qc) : Qc * Qc :=
  (Qc_max (fst a) (fst b), Qc_max (snd a) (snd b)).

(** Rasterisation at 200 dpi, sizes rounded up to whole pixels. *)
Definition raster_200dpi (pg : Page) : Z * Z :=
  (Qceiling (fst (mediabox pg) * Q2Qc (200 # 72))%Qc,
   Qceiling (snd (mediabox pg) * Q2Qc (200 # 72))%Qc).

(** A page's text: the strings drawn on it, in order. *)
Fixpoint text_of_layers (ls : list Layer) : pystr :=
  match ls with
  | [] => []
  | LText _ _ s :: rest => s ++ text_of_layers rest
  | _ :: rest => text_of_layers rest
  end.
Definition drawn_text (pg : Page) : pystr := text_of_layers (content pg).

(** The local variables of [adjust_pdf_size] once both factors are
    computed, and the page as [scale_by] leaves it. *)
Record AdjustLocals := mkAdjustLocals {
  current_width : Qc; current_height : Qc;
  scale_factor_width : Qc; scale_factor_height : Qc;
  scaled_page0 : Page
}.

(** ** Inputs used to run the model *)

Definition input_path : path := of_ascii "/home/user/declaration.pdf".
Definition output_dir : path := of_ascii "/home/user/out".
Definition final_path : path := of_ascii "/home/user/out/final_output_with_signature.pdf".
Definition signature_file : path := of_ascii "/app/signatures/placeholder_signature_1.png".
Definition domicar_file : path := of_ascii "/app/signatures/placeholder_signature_2.png".
Definition avi : pystr := [1488; 1489; 1497].

(** A one-page US-letter source. *)
Definition letter_page : Page := mkPage letter [LOriginal 0].
Definition second_page : Page := mkPage letter [LOriginal 1].
Definition stale_output : FileData := FPdf [mkPage letter [LOriginal 99]].

Definition base_world (fs : gmap path FileData) (font : bool) : World := {|
  files := fs;
  write_denied := ∅;
  environ := ∅;
  local_dir := of_ascii "/app";
  arial_ttf := font;
  poppler_dirs := {[ of_ascii "poppler-23.05.0/Library/bin" ]};
  today := of_ascii "03-11-2026";
  fslog := []
|}.

Definition world_with (source : list Page) (extra : gmap path FileData) : World :=
  base_world
    (<[input_path := FPdf source]>
       (<[signature_file := FImage (mkImage (800, 400)%Z true (PxFile signature_file))]>
          (<[domicar_file := FImage (mkImage (500, 500)%Z true (PxFile domicar_file))]> extra)))
    true.

(** Two pages of text: the foreigner marker on the first, the company
    marker on the second. *)
Definition foreigner_text_page : Page :=
  mkPage letter [LText 0%Qc 0%Qc ([1514; 1493; 1513; 1489; 32] ++ [1494; 1512])].
Definition company_text_page : Page :=
  mkPage letter [LText 0%Qc 0%Qc [1508; 1512; 1496; 1497; 32; 1492; 1495; 1489; 1512; 1492;
                                  32; 1492; 1513; 1493; 1499; 1512; 1514]].
Definition rasterised_letter_page : Page :=
  mkPage (Qc_of_Z 1700, Qc_of_Z 2200) [LOriginal 7].
Definition sample_date : pystr := of_ascii "03-11-2026".
Definition sample_id : pystr := of_ascii "123456789".
Definition sample_signature_paths : gmap pystr path :=
  {[ of_ascii "signature" := signature_file; of_ascii "domicar_signature" := domicar_file ]}.

Definition letter_world : World := world_with [letter_page] ∅.
Definition marker_world : World := world_with [foreigner_text_page; company_text_page] ∅.
Definition stamping_world : World :=
  world_with [letter_page]
    {[ of_ascii "signed_declaration.pdf" := FPdf [letter_page; second_page];
       final_path := FPdf [rasterised_letter_page] ]}.
Definition two_page_world : World := world_with [letter_page; second_page] ∅.
Definition rerun_world : World := world_with [letter_page] {[ final_path := stale_output ]}.
Definition empty_source_world : World := world_with [] ∅.
Definition fontless_world : World := base_world {[ input_path := FPdf [letter_page] ]} false.

(** ** gui.py: the form, the preferences file and what a handler shows *)

(** Truth value of a string: the empty string is false. *)
Definition truthy (s : pystr) : bool :=
  match s with [] => false | _ :: _ => true end.

(** 'app_data.json': a JSON object of strings, or something [json.load]
    rejects.  It is the one file kept apart from [files], which holds the
    documents and the images. *)
Inductive JsonFile : Type :=
  | JObject (d : gmap pystr pystr)
  | JNotJson.

Record Desktop := mkDesktop {
  dt_world : World;
  dt_app_data : option JsonFile
}.

(** The widgets and the two closure variables of [main]. *)
Record Form := mkForm {
  entry_name : pystr;
  entry_id : pystr;
  radio_declaration_type : pystr;
  radio_gender : pystr;
  file_path : option path;           (* None until a file dialog returned *)
  output_folder : path
}.

Inductive GuiAction : Type :=
  | ShowError (message : pystr)      (* messagebox.showerror("Error", message) *)
  | ShowErrorOf (e : PyError)        (* messagebox.showerror("Error", str(e)) *)
  | Popen (p : path)                 (* subprocess.Popen([p], shell=True) *)
  | ShowInfo (message : pystr).      (* messagebox.showinfo("Info", message) *)

(** What a button handler leaves behind: the widgets, the machine, the
    dialogs it showed in order, and the exception it let escape, if any. *)
Record Outcome := mkOutcome {
  oc_form : Form;
  oc_desktop : Desktop;
  oc_actions : list GuiAction;
  oc_raised : option PyError
}.

Definition app_data_filename : path := of_ascii "app_data.json".

(** [load_data()]; JSONDecodeError is a ValueError. *)
Definition load_data (dt : Desktop) : PyError + gmap pystr pystr :=
  match dt_app_data dt with
  | None => inr ∅
  | Some (JObject d) => inr d
  | Some JNotJson => inl ValueError
  end.

(** [save_data(name, id, gender, output_folder)] *)
Definition save_data (name id gender output_folder : pystr) (dt : Desktop)
    : (PyError + unit) * Desktop :=
  let data : gmap pystr pystr :=
    {[ of_ascii "name" := name; of_ascii "id" := id; of_ascii "gender" := gender;
       of_ascii "output_folder" := output_folder ]} in
  if decide (app_data_filename ∈ write_denied (dt_world dt)) then (inl OSError, dt)
  else (inr tt,
        mkDesktop (set_files (fun fs => fs) (EvWrite app_data_filename) (dt_world dt))
                  (Some (JObject data))).

(** The widgets as [main] sets them up from the loaded preferences. *)
Definition initial_form (data : gmap pystr pystr) : Form := {|
  entry_name := dict_get data (of_ascii "name") [];
  entry_id := dict_get data (of_ascii "id") [];
  radio_declaration_type := of_ascii "person";
  radio_gender := dict_get data (of_ascii "gender") [];
  file_path := None;
  output_folder := dict_get data (of_ascii "output_folder") []
|}.

(** [ask_for_folder] with the folder the dialog returned. *)
Definition ask_for_folder (chosen : path) (f : Form) : Form :=
  mkForm (entry_name f) (entry_id f) (radio_declaration_type f) (radio_gender f)
         (file_path f) chosen.

Definition fill_all_fields : pystr := of_ascii "Please fill in all fields".
Definition process_completed : pystr := of_ascii "Process completed".

(** Every field that [on_begin_button] checks holds something. *)
Definition filled (f : Form) : Prop :=
  entry_name f <> [] /\ entry_id f <> [] /\
  (exists p, file_path f = Some p /\ p <> []) /\
  output_folder f <> [] /\ radio_declaration_type f <> [] /\ radio_gender f <> [].

(** The dict [save_data] dumps for a form. *)
Definition saved_preferences (f : Form) : gmap pystr pystr :=
  {[ of_ascii "name" := entry_name f; of_ascii "id" := entry_id f;
     of_ascii "gender" := radio_gender f;
     of_ascii "output_folder" := output_folder f ]}.

(** ** Desktops used to run the handlers *)

Definition filled_form : Form := {|
  entry_name := [1488; 1489; 1497];
  entry_id := of_ascii "123456789";
  radio_declaration_type := of_ascii "person";
  radio_gender := of_ascii "male";
  file_path := Some input_path;
  output_folder := output_dir
|}.
Definition nameless_form : Form :=
  mkForm [] (of_ascii "123456789") (of_ascii "person") (of_ascii "male")
         (Some input_path) output_dir.
Definition letter_desktop : Desktop := mkDesktop letter_world None.
Definition marker_desktop : Desktop := mkDesktop marker_world None.
Definition empty_source_desktop : Desktop := mkDesktop empty_source_world None.
Definition locked_desktop : Desktop :=
  mkDesktop
    {| files := files letter_world; write_denied := {[ of_ascii "app_data.json" ]};
       environ := ∅; local_dir := of_ascii "/app"; arial_ttf := true;
       poppler_dirs := {[ of_ascii "poppler-23.05.0/Library/bin" ]};
       today := of_ascii "03-11-2026"; fslog := [] |}
    None.
(** A page without height, standing at the output path. *)
Definition flat_page : Page := mkPage (Qc_of_Z 1700, 0%Qc) [LOriginal 3].
Definition flat_world : World :=
  base_world {[ of_ascii "/home/user/out/final_output_with_signature.pdf" := FPdf [flat_page] ]}
             true.

Section Pipeline.

(** What the libraries decide. *)
Variable nonascii_lower : pystr -> nat -> pystr.
  (* str.lower() at a non-ASCII code point, given the string and the index *)
Variable stringWidth : pystr -> Qc.
  (* canvas.stringWidth(s, 'Arial', 12) *)
Variable merged_mediabox : Qc * Qc -> Qc * Qc -> Qc * Qc.
  (* the MediaBox PageMerge.render gives the page, from the two pages' boxes *)
Variable raster_size : Page -> Z * Z.
  (* pixel size of a page rasterised by pdf2image *)
Variable extract_text : Page -> pystr.
  (* PyPDF2 page.extract_text() *)

(** ** signing.py: generate_declaration_text *)

Fixpoint lower_from (whole : pystr) (i : nat) (s : pystr) : pystr :=
  match s with
  | [] => []
  | c :: s' =>
      (if c <? 128 then [ascii_lower c] else nonascii_lower whole i)
        ++ lower_from whole (S i) s'
  end.

(** [s.lower()] *)
Definition py_lower (s : pystr) : pystr := lower_from s 0 s.

Definition generate_declaration_text
    (current_date declarator_name id_number declarator_gender : pystr) : list pystr :=
  let terms := dict_get gender_terms (py_lower declarator_gender)
                 (gender_terms !!! of_ascii "male") in
  declaration_text_lines terms current_date declarator_name id_number.

(** ** signing.py: register_hebrew_font, create_declaration_pdf *)

Definition register_hebrew_font : Py unit := fun w =>
  if arial_ttf w then (inr tt, w) else (inl TTFError, w).

Fixpoint draw_lines (current_date : pystr) (lines : list pystr) (y_position : Qc)
    : list Layer :=
  match lines with
  | [] => []
  | line :: rest =>
      let processed_line := process_hebrew_text line current_date in
      let text_width := stringWidth processed_line in
      let x_position := ((fst letter - text_width) / Qc_of_Z 2 - Qc_of_Z 100)%Qc in
      LText x_position y_position processed_line
        :: draw_lines current_date rest (y_position - Qc_of_Z 14)%Qc
  end.

Definition create_declaration_pdf (signature_text_lines : list pystr)
    (current_date : pystr) : list Page :=
  [mkPage letter (draw_lines current_date signature_text_lines (Qc_of_Z 300))].

(** ** signing.py: merge_pdfs *)

(** [PageMerge(first_page).add(merge_page).render()] paints the overlay
    after the content of the page; the writer receives that one page. *)
Definition merge_pdfs (input_pdf_path : path) (declaration_pdf_stream : list Page)
    : Py path :=
  reader <- read_pdf input_pdf_path ;;
  let declaration_pdf := declaration_pdf_stream in
  first_page <- index0 reader ;;
  merge_page <- index0 declaration_pdf ;;
  let first_page :=
    mkPage (merged_mediabox (mediabox first_page) (mediabox merge_page))
           (content first_page ++ content merge_page) in
  let output_file := of_ascii "signed_declaration.pdf" in
  write_file output_file (FPdf [first_page]) ;;
  ret output_file.

(** ** config.py *)

Definition poppler_bin : Py path :=
  os_getenv (of_ascii "POPPLER_PATH") (of_ascii "poppler-23.05.0/Library/bin").

Definition signatures_dir : Py path := fun w =>
  os_getenv (of_ascii "SIGNATURES_DIR")
    (os_path_join (local_dir w) (of_ascii "signatures")) w.

(** The module constant, resolved from the environment of the run. *)
Definition SIGNATURE_PATHS : Py (gmap pystr path) :=
  dir1 <- signatures_dir ;;
  dir2 <- signatures_dir ;;
  ret {[ of_ascii "signature" := os_path_join dir1 (of_ascii "placeholder_signature_1.png");
         of_ascii "domicar_signature" :=
           os_path_join dir2 (of_ascii "placeholder_signature_2.png") ]}.

(** ** signing.py: add_signatures *)

Definition rasterize (pg : Page) : Image := mkImage (raster_size pg) false (PxRaster pg).

(** pdf2image [convert_from_path(pdf_path, poppler_path=...)] *)
Definition convert_from_path (pdf_path poppler_path : path) : Py (list Image) := fun w =>
  if decide (poppler_path ∈ poppler_dirs w)
  then (pages <- read_pdf pdf_path ;; ret (map rasterize pages)) w
  else (inl PDFInfoNotInstalledError, w).

(** [pages[0]] is pasted on in place, then saved with [pages[1:]]
    appended. *)
Definition add_signatures (input_pdf_path output_pdf_path : path)
    (declaration_type : pystr) (signature_paths : gmap pystr path) : Py unit :=
  poppler_path <- poppler_bin ;;
  pages <- convert_from_path input_pdf_path poppler_path ;;
  signature_path <- dict_index signature_paths (of_ascii "signature") ;;
  signature_file <- image_open signature_path ;;
  let signature := resize signature_file (600, 600)%Z in
  domicar_path <- dict_index signature_paths (of_ascii "domicar_signature") ;;
  domicar_file <- image_open domicar_path ;;
  let domicar_signature := resize domicar_file (650, 650)%Z in
  page0 <- index0 pages ;;
  page0 <- paste page0 signature (350, 1320)%Z signature ;;
  page0 <- (if decide (declaration_type = of_ascii "foreigner")
            then paste page0 domicar_signature (-30, 1820)%Z domicar_signature
            else if decide (declaration_type = of_ascii "company")
            then paste page0 domicar_signature (-30, 900)%Z domicar_signature
            else if decide (declaration_type = of_ascii "israeli")
            then paste page0 domicar_signature (-30, 1650)%Z domicar_signature
            else ret page0) ;;
  write_file output_pdf_path (FPdf (map page_of_image (page0 :: tail pages))).

(** ** signing.py: adjust_pdf_size *)

(** The body of [adjust_pdf_size] from the reading of the MediaBox to
    [page0.scale_by(scale_factor_width)]; a zero width or height makes the
    division raise. *)
Definition adjust_locals (page0 : Page) : Py AdjustLocals :=
  let current_width := fst (mediabox page0) in
  let current_height := snd (mediabox page0) in
  scale_factor_width <- py_div desired_width current_width ;;
  scale_factor_height <- py_div desired_height current_height ;;
  ret (mkAdjustLocals current_width current_height
         scale_factor_width scale_factor_height
         (scale_by page0 scale_factor_width)).

Definition adjust_pdf_size (output_pdf_path : path) : Py unit :=
  pdf <- read_pdf output_pdf_path ;;
  page0 <- index0 pdf ;;
  locals <- adjust_locals page0 ;;
  write_file output_pdf_path (FPdf [scaled_page0 locals]).

(** ** signing.py: sign_declaration *)

(** [current_date] is read from the clock of the world. *)
Definition sign_declaration (name id_number : pystr) (input_pdf_path output_folder : path)
    (declaration_type declarator_gender : pystr) : Py path :=
  register_hebrew_font ;;
  current_date <- (fun w => (inr (today w), w)) ;;
  let id_number_reversed := reverse id_number in
  let signature_text_lines :=
    generate_declaration_text current_date name id_number_reversed declarator_gender in
  let declaration_pdf_stream := create_declaration_pdf signature_text_lines current_date in
  merged_pdf_path <- merge_pdfs input_pdf_path declaration_pdf_stream ;;
  let output_pdf_path :=
    os_path_join output_folder (of_ascii "final_output_with_signature.pdf") in
  exists_already <- os_path_isfile output_pdf_path ;;
  (if exists_already : bool then os_remove output_pdf_path else ret tt) ;;
  signature_paths <- SIGNATURE_PATHS ;;
  add_signatures merged_pdf_path output_pdf_path declaration_type signature_paths ;;
  adjust_pdf_size output_pdf_path ;;
  ret output_pdf_path.

(** ** utils.py: detect_declaration_type *)

Definition detect_declaration_type (file_path : path) : Py pystr :=
  reader <- read_pdf file_path ;;
  ret (detect_in_texts (map extract_text reader)).

(** ** Names for what the stages produce *)

Definition merged_filename : path := of_ascii "signed_declaration.pdf".
Definition final_filename : path := of_ascii "final_output_with_signature.pdf".

(** The overlay page drawn for a request in world [w]. *)
Definition overlay_page (w : World) (name id_number gender : pystr) : Page :=
  mkPage letter
    (draw_lines (today w)
       (generate_declaration_text (today w) name (reverse id_number) gender)
       (Qc_of_Z 300)).

(** Page 0 of the source with the overlay painted over it. *)
Definition composite (first_page merge_page : Page) : Page :=
  mkPage (merged_mediabox (mediabox first_page) (mediabox merge_page))
         (content first_page ++ content merge_page).

(** [base] after a successful [base.paste(src, box, src)]. *)
Definition pasted (base src : Image) (box : Z * Z) : Image :=
  mkImage (size base) (maskable base) (PxPaste (px base) src box src).

Definition secondary_box (declaration_type : pystr) : option (Z * Z) :=
  if decide (declaration_type = of_ascii "foreigner") then Some (-30, 1820)%Z
  else if decide (declaration_type = of_ascii "company") then Some (-30, 900)%Z
  else if decide (declaration_type = of_ascii "israeli") then Some (-30, 1650)%Z
  else None.

Definition stamped (declaration_type : pystr) (base primary secondary : Image) : Image :=
  let with_primary := pasted base primary (350, 1320)%Z in
  match secondary_box declaration_type with
  | Some box => pasted with_primary secondary box
  | None => with_primary
  end.

(** The folder and the two asset paths that config.py resolves in [w]. *)
Definition resolved_signatures_dir (w : World) : path :=
  default (os_path_join (local_dir w) (of_ascii "signatures"))
          (environ w !! of_ascii "SIGNATURES_DIR").
Definition resolved_signature (w : World) : path :=
  os_path_join (resolved_signatures_dir w) (of_ascii "placeholder_signature_1.png").
Definition resolved_domicar (w : World) : path :=
  os_path_join (resolved_signatures_dir w) (of_ascii "placeholder_signature_2.png").
Definition resolved_poppler (w : World) : path :=
  default (of_ascii "poppler-23.05.0/Library/bin") (environ w !! of_ascii "POPPLER_PATH").

(** The world after the pre-deletion step of [sign_declaration]. *)
Definition after_predeletion (out : path) (w : World) : World :=
  if bool_decide (is_Some (files w !! out))
  then set_files (delete out) (EvRemove out) w
  else w.

(** A computation whose file removals, whatever its outcome, are all of
    the path [out]. *)
Definition removes_only (out : path) {A : Type} (m : Py A) : Prop :=
  forall w, exists evs,
    fslog (snd (m w)) = fslog w ++ evs /\
    Forall (fun ev => forall p, ev = EvRemove p -> p = out) evs.

(** A computation that, whatever its outcome, leaves every file outside
    [allowed] as it found it. *)
Definition writes_only (allowed : path -> Prop) {A : Type} (m : Py A) : Prop :=
  forall w p, ~ allowed p -> files (snd (m w)) !! p = files w !! p.

(** A computation that never changes anything. *)
Definition read_only {A : Type} (m : Py A) : Prop := forall w, snd (m w) = w.

(** ** gui.py: the handlers of main *)

(** [ask_for_file] with the path the dialog returned (empty when the
    dialog was cancelled).  The closure variable is assigned first, so it
    keeps the path even when the detection raises. *)
Definition ask_for_file (chosen : path) (f : Form) (dt : Desktop) : Outcome :=
  let f1 := mkForm (entry_name f) (entry_id f) (radio_declaration_type f) (radio_gender f)
                   (Some chosen) (output_folder f) in
  if truthy chosen then
    match detect_declaration_type chosen (dt_world dt) with
    | (inr declaration_type, w') =>
        mkOutcome (mkForm (entry_name f1) (entry_id f1) declaration_type (radio_gender f1)
                          (file_path f1) (output_folder f1))
                  (mkDesktop w' (dt_app_data dt)) [] None
    | (inl e, w') => mkOutcome f1 (mkDesktop w' (dt_app_data dt)) [] (Some e)
    end
  else mkOutcome f1 dt [] None.

(** [on_begin_button] *)
Definition on_begin_button (f : Form) (dt : Desktop) : Outcome :=
  let name := entry_name f in
  let id := entry_id f in
  let declaration_type := radio_declaration_type f in
  let declarator_gender := radio_gender f in
  if negb (truthy name) || negb (truthy id)
     || negb (match file_path f with Some p => truthy p | None => false end)
     || negb (truthy (output_folder f)) || negb (truthy declaration_type)
     || negb (truthy declarator_gender)
  then mkOutcome f dt [ShowError fill_all_fields] None
  else
    match save_data name id declarator_gender (output_folder f) dt with
    | (inl e, dt') => mkOutcome f dt' [ShowErrorOf e] None
    | (inr _, dt') =>
        match sign_declaration name id (default [] (file_path f)) (output_folder f)
                declaration_type declarator_gender (dt_world dt') with
        | (inl e, w') => mkOutcome f (mkDesktop w' (dt_app_data dt')) [] (Some e)
        | (inr output_pdf_path, w') =>
            mkOutcome f (mkDesktop w' (dt_app_data dt'))
                      [Popen output_pdf_path; ShowInfo process_completed] None
        end
    end.

(** * Theorems *)

(** ** Facts about the string primitives *)

Lemma startswith_true (s p : pystr) : startswith s p = true <-> p `prefix_of` s.
Proof. unfold startswith. apply bool_decide_eq_true. Qed.

Lemma startswith_false (s p : pystr) : startswith s p = false <-> ~ p `prefix_of` s.
Proof. unfold startswith. apply bool_decide_eq_false. Qed.

Lemma startswith_length (s p : pystr) : startswith s p = true -> (length p <= length s)%nat.
Proof. rewrite startswith_true. apply prefix_length. Qed.

Lemma startswith_split (s p : pystr) :
  startswith s p = true -> s = p ++ drop (length p) s.
Proof.
  rewrite startswith_true. intros [k ->].
  by rewrite drop_app_length.
Qed.

Lemma occurs_drop (sub s : pystr) :
  occurs sub s <-> exists j, startswith (drop j s) sub = true.
Proof.
  split.
  - intros (a & b & ->). exists (length a).
    rewrite drop_app_length. apply startswith_true. by exists b.
  - intros (j & Hj). apply startswith_true in Hj as [k Hk].
    exists (take j s), k. by rewrite <- Hk, take_drop.
Qed.

Lemma concat_singletons (s : pystr) : concat (map (fun c => [c]) s) = s.
Proof. induction s as [|c s IH]; simpl; [done | by rewrite IH]. Qed.

(** *** The scan of [str.replace] *)

Section Replace.
Variables old new : pystr.
Hypothesis old_nonempty : old <> [].

Lemma replace_scan_skip (s : pystr) (k : nat) :
  replace_scan old new s k = replace_scan old new (drop k s) 0.
Proof.
  revert k. induction s as [|c s IH]; intros [|k]; simpl; auto.
Qed.

Lemma replace_scan_match (s : pystr) :
  startswith s old = true ->
  replace_scan old new s 0 = new ++ replace_scan old new (drop (length old) s) 0.
Proof using old_nonempty.
  intros Hp. destruct s as [|c s].
  - apply startswith_length in Hp. destruct old; [done | simpl in Hp; lia].
  - simpl. rewrite Hp. rewrite replace_scan_skip.
    destruct old as [|o old']; [done |]. simpl. by rewrite Nat.sub_0_r.
Qed.

Lemma replace_scan_length (s : pystr) (k : nat) :
  length old = length new ->
  length (replace_scan old new s k) = (length s - k)%nat.
Proof using old_nonempty.
  intros Hlen. revert k. induction s as [|c s IH]; intros k; [done |].
  destruct k as [|k]; simpl; [| apply IH].
  destruct (startswith (c :: s) old) eqn:Hp.
  - apply startswith_length in Hp. simpl in Hp.
    rewrite length_app, IH, <- Hlen.
    destruct old; [done | simpl in *; lia].
  - simpl. rewrite IH. lia.
Qed.

Lemma py_find_none (s : pystr) :
  py_find old s = None -> ~ occurs old s.
Proof.
  induction s as [|c s IH]; simpl.
  - destruct (startswith [] old) eqn:Hp; [done |]. intros _.
    rewrite occurs_drop. intros [j Hj]. rewrite drop_nil in Hj. congruence.
  - destruct (startswith (c :: s) old) eqn:Hp; [done |].
    destruct (py_find old s) eqn:Hf; [done |]. intros _.
    rewrite occurs_drop. intros [[|j] Hj]; [simpl in Hj; congruence |].
    apply IH; [done |]. apply occurs_drop. by exists j.
Qed.

Lemma py_find_some (s : pystr) (i : nat) :
  py_find old s = Some i ->
  s = take i s ++ old ++ drop (i + length old) s /\
  forall j, (j < i)%nat -> startswith (drop j s) old = false.
Proof using old_nonempty.
  revert i. induction s as [|c s IH]; intros i; simpl.
  - destruct (startswith [] old) eqn:Hp; [| done].
    apply startswith_length in Hp. destruct old; [done | simpl in Hp; lia].
  - destruct (startswith (c :: s) old) eqn:Hp.
    + intros [= <-]. simpl. split; [by apply startswith_split in Hp | lia].
    + destruct (py_find old s) as [i'|] eqn:Hf; [| done].
      intros [= <-]. destruct (IH i' eq_refl) as [Hs Hmin]. simpl.
      split; [by rewrite <- Hs |].
      intros [|j] Hj; simpl; [done |]. apply Hmin. lia.
Qed.

Lemma py_find_some_prefix_clean (s : pystr) (i : nat) :
  py_find old s = Some i -> ~ occurs old (take i s).
Proof using old_nonempty.
  intros Hf. destruct (py_find_some s i Hf) as [_ Hmin].
  rewrite occurs_drop. intros [j Hj].
  pose proof (startswith_length _ _ Hj) as Hb.
  rewrite length_drop, length_take in Hb.
  pose proof (Nat.le_min_l i (length s)) as Hmn.
  assert (j < i)%nat as Hji by (destruct old; [done | simpl in Hb; lia]).
  specialize (Hmin j Hji). apply startswith_false in Hmin. apply Hmin.
  apply startswith_true in Hj. etrans; [exact Hj |].
  rewrite <- (take_drop i s) at 2. rewrite drop_app_le.
  - by apply prefix_app_r.
  - rewrite length_take. destruct old; [done | simpl in Hb; lia].
Qed.

Lemma replace_scan_find_none (s : pystr) :
  py_find old s = None -> replace_scan old new s 0 = s.
Proof.
  induction s as [|c s IH]; simpl; [done |].
  destruct (startswith (c :: s) old); [done |].
  destruct (py_find old s); [done |]. intros _. by rewrite IH.
Qed.

Lemma replace_scan_find_some (s : pystr) (i : nat) :
  py_find old s = Some i ->
  replace_scan old new s 0 =
    take i s ++ new ++ replace_scan old new (drop (i + length old) s) 0.
Proof using old_nonempty.
  revert i. induction s as [|c s IH]; intros i Hf.
  - simpl in Hf. destruct (startswith [] old) eqn:Hp; [| done].
    apply startswith_length in Hp. destruct old; [done | simpl in Hp; lia].
  - pose proof Hf as Hf'. simpl in Hf.
    destruct (startswith (c :: s) old) eqn:Hp.
    + injection Hf as <-. by rewrite replace_scan_match.
    + destruct (py_find old s) as [i'|] eqn:Hf2; [| done].
      injection Hf as <-. simpl. rewrite Hp. by rewrite (IH i').
Qed.

(** The specification's wording and the scan agree once the fuel covers
    the text. *)
Lemma restore_date_replace_scan (fuel : nat) (s : pystr) :
  (length s <= fuel)%nat ->
  restore_date fuel old new s = replace_scan old new s 0.
Proof using old_nonempty.
  revert s. induction fuel as [|fuel IH]; intros s Hlen.
  - destruct s; [done | simpl in Hlen; lia].
  - simpl. destruct (py_find old s) as [i|] eqn:Hf.
    + rewrite (replace_scan_find_some s i Hf). rewrite IH; [done |].
      rewrite length_drop. destruct old; [done | simpl; lia].
    + by rewrite replace_scan_find_none.
Qed.

(** The scan cuts the text at the matches of [old]: the pieces between the
    matches are kept, each match becomes [new]. *)
Lemma replace_scan_segments (n : nat) (s : pystr) :
  (length s <= n)%nat ->
  exists segs,
    segs <> [] /\ s = py_join old segs /\
    replace_scan old new s 0 = py_join new segs /\
    Forall (fun seg => ~ occurs old seg) segs.
Proof using old_nonempty.
  revert s. induction n as [|n IH]; intros s Hlen.
  - destruct s; [| simpl in Hlen; lia]. exists [[]]. repeat split; [done |].
    constructor; [| constructor]. intros Hocc. apply occurs_drop in Hocc as [j Hj].
    apply startswith_length in Hj. rewrite drop_nil in Hj.
    destruct old; [done | simpl in Hj; lia].
  - destruct (py_find old s) as [i|] eqn:Hf.
    + destruct (IH (drop (i + length old) s)) as (segs & Hne & Hs & Hr & Hall).
      { rewrite length_drop. destruct old; [done | simpl; lia]. }
      exists (take i s :: segs).
      destruct segs as [|seg segs]; [done |].
      repeat split.
      * done.
      * change (s = take i s ++ old ++ py_join old (seg :: segs)).
        rewrite <- Hs. by apply py_find_some.
      * change (replace_scan old new s 0 = take i s ++ new ++ py_join new (seg :: segs)).
        rewrite <- Hr. by apply replace_scan_find_some.
      * constructor; [by apply py_find_some_prefix_clean | done].
    + exists [s]. repeat split; [done | by apply replace_scan_find_none |].
      constructor; [by apply py_find_none | constructor].
Qed.
End Replace.

Lemma reverse_nonempty (d : pystr) : d <> [] -> reverse d <> [].
Proof.
  intros Hd Hr. apply (f_equal length) in Hr. rewrite length_reverse in Hr.
  destruct d; [done | simpl in Hr; lia].
Qed.

Lemma occurs_reverse (sub s : pystr) : occurs sub s -> occurs (reverse sub) (reverse s).
Proof.
  intros (a & b & ->). exists (reverse b), (reverse a).
  by rewrite !reverse_app, <- app_assoc.
Qed.

(** ** process_hebrew_text *)

(** C9: the processed line has exactly as many characters as the input
    line, for every line and every date string. *)
Theorem process_hebrew_text_length (line current_date : pystr) :
  length (process_hebrew_text line current_date) = length line.
Proof.
  unfold process_hebrew_text, py_replace.
  destruct (reverse current_date) as [|c rd] eqn:Hrd.
  - assert (current_date = []) as ->.
    { apply (f_equal length) in Hrd. rewrite length_reverse in Hrd.
      by destruct current_date. }
    simpl. by rewrite concat_singletons, length_reverse.
  - rewrite replace_scan_length.
    + rewrite length_reverse. lia.
    + done.
    + by rewrite <- Hrd, length_reverse.
Qed.

(** C5: the function is the reference definition (reverse the line, then
    restore every reversed date to its natural form); the reversed line is
    cut at the reversed dates into pieces that hold no reversed date, and the
    result is the same pieces with the natural date between them; a date that
    stands in the line stands in the result. *)
Theorem process_hebrew_text_reference (line current_date : pystr) :
  process_hebrew_text line current_date = reverse_preserving_date line current_date /\
  (exists segs,
     reverse line = py_join (reverse current_date) segs /\
     process_hebrew_text line current_date = py_join current_date segs /\
     (current_date <> [] -> Forall (fun seg => ~ occurs (reverse current_date) seg) segs)) /\
  (occurs current_date line -> occurs current_date (process_hebrew_text line current_date)).
Proof.
  destruct current_date as [|c d].
  - unfold process_hebrew_text, reverse_preserving_date, py_replace. simpl.
    rewrite concat_singletons. split; [done |]. split.
    + exists [reverse line]. by repeat split.
    + intros _. by exists [], (reverse line).
  - set (date := c :: d).
    assert (reverse date <> []) as Hne by (by apply reverse_nonempty).
    assert (process_hebrew_text line date = replace_scan (reverse date) date (reverse line) 0) as Hscan.
    { unfold process_hebrew_text, py_replace. by destruct (reverse date). }
    destruct (replace_scan_segments (reverse date) date Hne (length (reverse line)) (reverse line))
      as (segs & Hsegs & Hcut & Hout & Hclean); [done |].
    split; [| split].
    + rewrite Hscan. unfold reverse_preserving_date. fold date.
      by rewrite restore_date_replace_scan.
    + exists segs. by rewrite Hscan.
    + intros Hocc. apply occurs_reverse in Hocc. rewrite Hscan, Hout.
      destruct segs as [|seg [|seg' rest]]; [done | |].
      * simpl in Hcut. rewrite Hcut in Hocc. by inversion Hclean.
      * exists seg, (py_join date (seg' :: rest)). done.
Qed.

(** ** Text Composer *)

Lemma gender_terms_lookup (k : pystr) :
  gender_terms !! k =
    if decide (k = of_ascii "male") then Some male_terms
    else if decide (k = of_ascii "female") then Some female_terms
    else None.
Proof.
  unfold gender_terms. rewrite lookup_insert.
  destruct (decide (of_ascii "male" = k)) as [<-|Hm].
  - by rewrite decide_True.
  - rewrite decide_False by done. rewrite lookup_singleton.
    destruct (decide (of_ascii "female" = k)) as [<-|Hf].
    + by rewrite decide_True.
    + by rewrite decide_False.
Qed.

Lemma gender_terms_male : gender_terms !!! of_ascii "male" = male_terms.
Proof. apply lookup_total_correct. by rewrite gender_terms_lookup. Qed.

Lemma lower_from_case_variant (whole : pystr) (i : nat) (g v : pystr) :
  case_variant g v -> Forall (fun c => 97 <= c <= 122) v -> lower_from whole i g = v.
Proof.
  intros Hcv. revert i. induction Hcv as [|c c' g v Hc _ IH]; intros i Hv; [done |].
  inversion Hv as [|? ? Hc' Hv']; subst. simpl.
  assert ((c <? 128) = true) as -> by (apply N.ltb_lt; lia).
  rewrite IH by done. f_equal. unfold ascii_lower.
  destruct Hc as [-> | [_ <-]].
  - assert ((c' <=? 90) = false) as -> by (apply N.leb_gt; lia).
    by rewrite andb_false_r.
  - assert ((65 <=? c) = true) as -> by (apply N.leb_le; lia).
    assert ((c <=? 90) = true) as -> by (apply N.leb_le; lia). done.
Qed.

Lemma case_variant_refl (v : pystr) : case_variant v v.
Proof. apply Forall2_same_length_lookup_2; [done |]. intros ? ? ? ? ?. left. congruence. Qed.

Lemma recognized_lowercase (v : pystr) :
  v = of_ascii "male" \/ v = of_ascii "female" -> Forall (fun c => 97 <= c <= 122) v.
Proof. intros [-> | ->]; repeat constructor; simpl; lia. Qed.

(** C7, as amended: the lookup key is the lower-cased gender.  When that is
    'male' or 'female' the matching term set fills the lines; for every other
    input the male term set does.  The function is total: it returns its
    eight lines for every gender string. *)
Theorem generate_declaration_text_gender (current_date name id_number gender : pystr) :
  (py_lower gender = of_ascii "male" ->
     generate_declaration_text current_date name id_number gender
       = declaration_text_lines male_terms current_date name id_number) /\
  (py_lower gender = of_ascii "female" ->
     generate_declaration_text current_date name id_number gender
       = declaration_text_lines female_terms current_date name id_number) /\
  (py_lower gender <> of_ascii "male" -> py_lower gender <> of_ascii "female" ->
     generate_declaration_text current_date name id_number gender
       = declaration_text_lines male_terms current_date name id_number) /\
  length (generate_declaration_text current_date name id_number gender) = 8%nat.
Proof.
  unfold generate_declaration_text, dict_get.
  rewrite gender_terms_lookup, gender_terms_male.
  repeat split.
  - intros ->. by rewrite decide_True.
  - intros ->. rewrite decide_False by done. by rewrite decide_True.
  - intros Hm Hf. by rewrite !decide_False.
Qed.

(** C10: a capitalisation variant of 'male' or of 'female' gives exactly the
    lines of the lower-case value, for every date, name and identifier. *)
Theorem generate_declaration_text_case_insensitive
    (current_date name id_number gender value : pystr) :
  value = of_ascii "male" \/ value = of_ascii "female" ->
  case_variant gender value ->
  generate_declaration_text current_date name id_number gender
    = generate_declaration_text current_date name id_number value.
Proof.
  intros Hv Hcv. unfold generate_declaration_text, py_lower.
  pose proof (recognized_lowercase value Hv) as Hlow.
  rewrite (lower_from_case_variant gender 0 gender value Hcv Hlow).
  by rewrite (lower_from_case_variant value 0 value value (case_variant_refl value) Hlow).
Qed.

(** ** Category detection *)

Lemma py_in_occurs (sub s : pystr) : py_in sub s = true <-> occurs sub s.
Proof.
  rewrite occurs_drop. induction s as [|c s IH]; simpl.
  - rewrite orb_false_r. split; [by exists 0%nat |].
    intros [j Hj]. by rewrite drop_nil in Hj.
  - rewrite orb_true_iff, IH. split.
    + intros [H | [j Hj]]; [by exists 0%nat | by exists (S j)].
    + intros [[|j] Hj]; [by left | right; by exists j].
Qed.

Lemma py_in_not_occurs (sub s : pystr) : py_in sub s = false <-> ~ occurs sub s.
Proof. rewrite <- py_in_occurs. by destruct (py_in sub s). Qed.

Lemma detect_in_texts_skip (pre rest : list pystr) :
  Forall no_marker pre -> detect_in_texts (pre ++ rest) = detect_in_texts rest.
Proof.
  induction 1 as [|t pre [Hc Hf] _ IH]; [done |]. simpl.
  apply py_in_not_occurs in Hc, Hf. by rewrite Hc, Hf.
Qed.

(** C2, as amended: the pages are scanned in order and the first page whose
    text holds a marker decides: 'company' when it holds the company marker
    (also when it holds the foreigner marker too), 'foreigner' when it holds
    only the foreigner marker; 'israeli' when no page holds a marker. *)
Theorem detect_declaration_type_first_marker
    (file_path : path) (w : World) (pages : list Page) :
  files w !! file_path = Some (FPdf pages) ->
  exists category,
    detect_declaration_type file_path w = (inr category, w) /\
    (Forall no_marker (map extract_text pages) -> category = of_ascii "israeli") /\
    (forall pre pg post,
       pages = pre ++ pg :: post -> Forall no_marker (map extract_text pre) ->
       (occurs company_marker (extract_text pg) -> category = of_ascii "company") /\
       (~ occurs company_marker (extract_text pg) ->
        occurs foreigner_marker (extract_text pg) -> category = of_ascii "foreigner")).
Proof.
  intros Hfile. exists (detect_in_texts (map extract_text pages)). split; [| split].
  - unfold detect_declaration_type, bind, read_pdf. by rewrite Hfile.
  - intros Hnone. rewrite <- (app_nil_r (map extract_text pages)).
    by rewrite detect_in_texts_skip.
  - intros pre pg post -> Hpre. rewrite map_app, detect_in_texts_skip by done. simpl.
    split.
    + intros Hc. apply py_in_occurs in Hc. by rewrite Hc.
    + intros Hc Hf. apply py_in_not_occurs in Hc. apply py_in_occurs in Hf.
      by rewrite Hc, Hf.
Qed.

(** ** Running the stages *)

Lemma bind_ok {A B : Type} (m : Py A) (k : A -> Py B) (w w' : World) (a : A) :
  m w = (inr a, w') -> bind m k w = k a w'.
Proof. unfold bind. by intros ->. Qed.

Lemma read_pdf_ok (p : path) (w : World) (pages : list Page) :
  files w !! p = Some (FPdf pages) -> read_pdf p w = (inr pages, w).
Proof. unfold read_pdf. by intros ->. Qed.

Lemma image_open_ok (p : path) (w : World) (im : Image) :
  files w !! p = Some (FImage im) -> image_open p w = (inr im, w).
Proof. unfold image_open. by intros ->. Qed.

Lemma write_file_ok (p : path) (d : FileData) (w : World) :
  p ∉ write_denied w ->
  write_file p d w = (inr tt, set_files (insert p d) (EvWrite p) w).
Proof. unfold write_file. intros H. by rewrite decide_False. Qed.

Lemma paste_ok (base src : Image) (box : Z * Z) (w : World) :
  maskable src = true -> paste base src box src w = (inr (pasted base src box), w).
Proof. unfold paste. by intros ->. Qed.

Lemma merge_pdfs_run (input_pdf_path : path) (w : World)
    (first_page merge_page : Page) (rest rest' : list Page) :
  files w !! input_pdf_path = Some (FPdf (first_page :: rest)) ->
  merged_filename ∉ write_denied w ->
  merge_pdfs input_pdf_path (merge_page :: rest') w =
    (inr merged_filename,
     set_files (insert merged_filename (FPdf [composite first_page merge_page]))
               (EvWrite merged_filename) w).
Proof.
  intros Hin Hw. unfold merge_pdfs.
  rewrite (bind_ok _ _ _ _ _ (read_pdf_ok _ _ _ Hin)). simpl.
  unfold bind at 1. simpl. unfold bind at 1. simpl.
  by rewrite (bind_ok _ _ _ _ _ (write_file_ok _ _ _ Hw)).
Qed.

Lemma add_signatures_run (input_pdf_path output_pdf_path : path)
    (declaration_type : pystr) (signature_paths : gmap pystr path) (w : World)
    (pg : Page) (rest : list Page) (sigp domp : path) (sig_im dom_im : Image) :
  resolved_poppler w ∈ poppler_dirs w ->
  files w !! input_pdf_path = Some (FPdf (pg :: rest)) ->
  signature_paths !! of_ascii "signature" = Some sigp ->
  files w !! sigp = Some (FImage sig_im) -> maskable sig_im = true ->
  signature_paths !! of_ascii "domicar_signature" = Some domp ->
  files w !! domp = Some (FImage dom_im) -> maskable dom_im = true ->
  output_pdf_path ∉ write_denied w ->
  add_signatures input_pdf_path output_pdf_path declaration_type signature_paths w =
    (inr tt,
     set_files
       (insert output_pdf_path
          (FPdf (map page_of_image
                   (stamped declaration_type (rasterize pg)
                      (resize sig_im (600, 600)%Z) (resize dom_im (650, 650)%Z)
                    :: map rasterize rest))))
       (EvWrite output_pdf_path) w).
Proof.
  intros Hpop Hin Hsp Hsig Hsm Hdp Hdom Hdm Hw. unfold add_signatures.
  unfold bind at 1. unfold poppler_bin, os_getenv. cbv beta iota.
  fold (resolved_poppler w).
  unfold bind at 1. unfold convert_from_path. rewrite decide_True by done.
  rewrite (bind_ok _ _ _ _ _ (read_pdf_ok _ _ _ Hin)). unfold ret at 1. cbv beta iota.
  unfold dict_index. rewrite Hsp, Hdp.
  unfold bind at 1. unfold ret at 1. cbv beta iota.
  rewrite (bind_ok _ _ _ _ _ (image_open_ok _ _ _ Hsig)).
  unfold bind at 1. unfold ret at 1. cbv beta iota.
  rewrite (bind_ok _ _ _ _ _ (image_open_ok _ _ _ Hdom)).
  simpl map. unfold index0. unfold bind at 1. unfold ret at 1. cbv beta iota.
  assert (maskable (resize sig_im (600, 600)%Z) = true) as Hsm' by done.
  assert (maskable (resize dom_im (650, 650)%Z) = true) as Hdm' by done.
  rewrite (bind_ok _ _ _ _ _ (paste_ok _ _ _ _ Hsm')).
  unfold stamped, secondary_box.
  repeat case_decide;
    (rewrite (bind_ok _ _ _ _ _ (paste_ok _ _ _ _ Hdm')) || unfold bind at 1, ret at 1);
    cbv beta iota; simpl tail; by rewrite write_file_ok.
Qed.

Lemma adjust_pdf_size_run (output_pdf_path : path) (w : World)
    (page0 : Page) (rest : list Page) :
  files w !! output_pdf_path = Some (FPdf (page0 :: rest)) ->
  fst (mediabox page0) <> 0%Qc -> snd (mediabox page0) <> 0%Qc ->
  output_pdf_path ∉ write_denied w ->
  adjust_pdf_size output_pdf_path w =
    (inr tt,
     set_files
       (insert output_pdf_path
          (FPdf [scale_by page0 (desired_width / fst (mediabox page0))%Qc]))
       (EvWrite output_pdf_path) w).
Proof.
  intros Hin Hw0 Hh0 Hw. unfold adjust_pdf_size.
  rewrite (bind_ok _ _ _ _ _ (read_pdf_ok _ _ _ Hin)). simpl index0.
  unfold bind at 1. unfold ret at 1. cbv beta iota.
  unfold adjust_locals, py_div. rewrite !decide_False by done.
  unfold bind, ret. cbv beta iota. simpl scaled_page0.
  by apply write_file_ok.
Qed.

(** ** Paths *)

Lemma os_path_join_length (a b : path) : (length b <= length (os_path_join a b))%nat.
Proof.
  unfold os_path_join. destruct (startswith b [47]); [done |].
  destruct (last a); [| done]. case_decide; rewrite !length_app; simpl; lia.
Qed.

Lemma os_path_join_last (a b : path) (c : N) :
  last b = Some c -> last (os_path_join a b) = Some c.
Proof.
  intros Hb. unfold os_path_join. destruct (startswith b [47]); [done |].
  destruct (last a); [| done]. case_decide; rewrite !last_app; simpl; by rewrite ?Hb.
Qed.

Lemma output_path_not_merged (output_folder : path) :
  os_path_join output_folder final_filename <> merged_filename.
Proof.
  intros Heq. pose proof (os_path_join_length output_folder final_filename) as Hlen.
  rewrite Heq in Hlen. vm_compute in Hlen. lia.
Qed.

Lemma signature_not_pdf (w : World) (output_folder : path) :
  resolved_signature w <> merged_filename /\
  resolved_signature w <> os_path_join output_folder final_filename /\
  resolved_domicar w <> merged_filename /\
  resolved_domicar w <> os_path_join output_folder final_filename.
Proof.
  assert (last (resolved_signature w) = Some 103) as Hs by (by apply os_path_join_last).
  assert (last (resolved_domicar w) = Some 103) as Hd by (by apply os_path_join_last).
  assert (last (os_path_join output_folder final_filename) = Some 102) as Ho
    by (by apply os_path_join_last).
  repeat split; intros Heq; rewrite Heq in *; (rewrite Ho in * || vm_compute in *); congruence.
Qed.

Lemma Qc_of_Z_nonzero (z : Z) : z <> 0%Z -> Qc_of_Z z <> 0%Qc.
Proof.
  intros Hz Heq. apply Hz. unfold Qc_of_Z in Heq.
  change 0%Qc with (Q2Qc 0) in Heq. apply Q2Qc_eq_iff in Heq.
  unfold Qeq in Heq. simpl in Heq. lia.
Qed.

Lemma after_predeletion_present (out : path) (w : World) (old : FileData) :
  files w !! out = Some old ->
  after_predeletion out w = set_files (delete out) (EvRemove out) w.
Proof. intros Hold. unfold after_predeletion. rewrite bool_decide_eq_true_2; by rewrite ?Hold. Qed.

Lemma size_stamped (declaration_type : pystr) (base primary secondary : Image) :
  size (stamped declaration_type base primary secondary) = size base.
Proof. unfold stamped. by destruct (secondary_box declaration_type). Qed.

Lemma mediabox_stamped_page (declaration_type : pystr) (pg : Page) (primary secondary : Image) :
  mediabox (page_of_image (stamped declaration_type (rasterize pg) primary secondary))
    = (Qc_of_Z (fst (raster_size pg)), Qc_of_Z (snd (raster_size pg))).
Proof. unfold page_of_image. simpl. by rewrite size_stamped. Qed.

Lemma files_after_predeletion (out p : path) (w : World) :
  p <> out -> files (after_predeletion out w) !! p = files w !! p.
Proof.
  intros Hne. unfold after_predeletion. case_bool_decide; [| done].
  simpl. by rewrite lookup_delete_ne.
Qed.

Lemma sign_declaration_run (name id_number : pystr) (input_pdf_path output_folder : path)
    (declaration_type gender : pystr) (w : World)
    (pg : Page) (rest : list Page) (sig_im dom_im : Image) :
  let out := os_path_join output_folder final_filename in
  let merged := composite pg (overlay_page w name id_number gender) in
  let page0 := page_of_image (stamped declaration_type (rasterize merged)
                                (resize sig_im (600, 600)%Z) (resize dom_im (650, 650)%Z)) in
  arial_ttf w = true ->
  files w !! input_pdf_path = Some (FPdf (pg :: rest)) ->
  merged_filename ∉ write_denied w ->
  out ∉ write_denied w ->
  resolved_poppler w ∈ poppler_dirs w ->
  files w !! resolved_signature w = Some (FImage sig_im) -> maskable sig_im = true ->
  files w !! resolved_domicar w = Some (FImage dom_im) -> maskable dom_im = true ->
  fst (raster_size merged) <> 0%Z -> snd (raster_size merged) <> 0%Z ->
  sign_declaration name id_number input_pdf_path output_folder declaration_type gender w =
    (inr out,
     set_files
       (insert out (FPdf [scale_by page0 (desired_width / fst (mediabox page0))%Qc]))
       (EvWrite out)
       (set_files (insert out (FPdf [page0])) (EvWrite out)
          (after_predeletion out
             (set_files (insert merged_filename (FPdf [merged]))
                        (EvWrite merged_filename) w)))).
Proof.
  intros out merged page0 Hfont Hin Hwm Hwo Hpop Hsig Hsm Hdom Hdm Hrw Hrh.
  destruct (signature_not_pdf w output_folder) as (Hs1 & Hs2 & Hd1 & Hd2).
  pose proof (output_path_not_merged output_folder) as Hom.
  fold out in Hs2, Hd2, Hom.
  unfold sign_declaration.
  unfold bind at 1. unfold register_hebrew_font. rewrite Hfont.
  unfold bind at 1. cbv beta iota.
  unfold create_declaration_pdf.
  rewrite (bind_ok _ _ _ _ _ (merge_pdfs_run _ _ _ _ _ _ Hin Hwm)).
  fold (overlay_page w name id_number gender). fold merged. fold final_filename. fold out.
  set (w1 := set_files _ (EvWrite merged_filename) w).
  assert ((exists_already <- os_path_isfile out ;;
           (if exists_already : bool then os_remove out else ret tt)) w1
          = (inr tt, after_predeletion out w1)) as Hpre.
  { unfold bind, os_path_isfile, after_predeletion, os_remove, ret.
    case_bool_decide as Hex; [| done].
    destruct Hex as [d Hd]. by rewrite Hd. }
  unfold bind at 1. unfold os_path_isfile at 1. cbv beta iota.
  unfold bind at 1.
  unfold bind, os_path_isfile in Hpre. rewrite Hpre. clear Hpre.
  set (w2 := after_predeletion out w1).
  unfold bind at 1. unfold SIGNATURE_PATHS, signatures_dir, os_getenv.
  unfold bind at 1. unfold bind at 1. unfold ret at 1. cbv beta iota.
  assert (forall p, files w2 !! p = files w1 !! p \/ p = out) as Hw2.
  { intros p. destruct (decide (p = out)); [by right | left].
    by apply files_after_predeletion. }
  assert (environ w2 = environ w /\ local_dir w2 = local_dir w /\
          write_denied w2 = write_denied w /\ poppler_dirs w2 = poppler_dirs w) as (He & Hl & Hwd & Hpd).
  { unfold w2, after_predeletion. by case_bool_decide. }
  rewrite He, Hl.
  fold (resolved_signatures_dir w). fold (resolved_signature w). fold (resolved_domicar w).
  erewrite (bind_ok _ _ w2 _ tt); cycle 1.
  { apply add_signatures_run with (pg := merged) (rest := []) (sigp := resolved_signature w)
      (domp := resolved_domicar w) (sig_im := sig_im) (dom_im := dom_im).
    - unfold resolved_poppler. by rewrite He, Hpd.
    - unfold w2. rewrite files_after_predeletion by done.
      unfold w1. simpl. by rewrite lookup_insert_eq.
    - by rewrite lookup_insert_eq.
    - unfold w2. rewrite files_after_predeletion by done.
      unfold w1. simpl. by rewrite lookup_insert_ne.
    - done.
    - rewrite lookup_insert_ne; [by rewrite lookup_singleton_eq | done].
    - unfold w2. rewrite files_after_predeletion by done.
      unfold w1. simpl. by rewrite lookup_insert_ne.
    - done.
    - by rewrite Hwd. }
  simpl map. fold page0.
  set (w3 := set_files _ (EvWrite out) w2).
  erewrite (bind_ok _ _ w3 _ tt); cycle 1.
  { apply adjust_pdf_size_run with (rest := []).
    - unfold w3. simpl. by rewrite lookup_insert_eq.
    - unfold page0. rewrite mediabox_stamped_page. by apply Qc_of_Z_nonzero.
    - unfold page0. rewrite mediabox_stamped_page. by apply Qc_of_Z_nonzero.
    - unfold w3. simpl. by rewrite Hwd. }
  done.
Qed.

(** ** File removals *)

Lemma removes_only_bind {A B : Type} (out : path) (m : Py A) (k : A -> Py B) :
  removes_only out m -> (forall a, removes_only out (k a)) -> removes_only out (bind m k).
Proof.
  intros Hm Hk w. destruct (Hm w) as (e1 & Hlog1 & Hall1). unfold bind.
  destruct (m w) as [[e|a] w1]; simpl in *; [by exists e1 |].
  destruct (Hk a w1) as (e2 & Hlog2 & Hall2).
  exists (e1 ++ e2). rewrite Hlog2, Hlog1, app_assoc. split; [done |].
  by apply Forall_app.
Qed.

Lemma removes_only_silent {A : Type} (out : path) (m : Py A) :
  (forall w, snd (m w) = w) -> removes_only out m.
Proof. intros Hm w. exists []. rewrite Hm, app_nil_r. by split. Qed.

Lemma removes_only_write (out p : path) (d : FileData) : removes_only out (write_file p d).
Proof.
  intros w. unfold write_file. case_decide; simpl.
  - exists []. by rewrite app_nil_r.
  - exists [EvWrite p]. split; [done |]. by repeat constructor.
Qed.

Lemma removes_only_remove (out : path) : removes_only out (os_remove out).
Proof.
  intros w. unfold os_remove. destruct (files w !! out); simpl.
  - exists [EvRemove out]. split; [done |]. repeat constructor. by intros p [= <-].
  - exists []. by rewrite app_nil_r.
Qed.

Lemma read_pdf_silent (p : path) (w : World) : snd (read_pdf p w) = w.
Proof. unfold read_pdf. by destruct (files w !! p) as [[]|]. Qed.

Lemma image_open_silent (p : path) (w : World) : snd (image_open p w) = w.
Proof. unfold image_open. by destruct (files w !! p) as [[]|]. Qed.

Lemma index0_silent {A : Type} (l : list A) (w : World) : snd (index0 l w) = w.
Proof. by destruct l. Qed.

Lemma dict_index_silent {V : Type} (d : gmap pystr V) (k : pystr) (w : World) :
  snd (dict_index d k w) = w.
Proof. unfold dict_index. by destruct (d !! k). Qed.

Lemma paste_silent (base src : Image) (box : Z * Z) (mask : Image) (w : World) :
  snd (paste base src box mask w) = w.
Proof. unfold paste. by destruct (maskable mask). Qed.

Lemma py_div_silent (a b : Qc) (w : World) : snd (py_div a b w) = w.
Proof. unfold py_div. by case_decide. Qed.

Ltac removal_frame :=
  repeat first
    [ apply removes_only_bind; [| intros ?]
    | apply removes_only_write
    | apply removes_only_remove
    | apply removes_only_silent; intros ?;
      first [ apply read_pdf_silent | apply image_open_silent | apply index0_silent
            | apply dict_index_silent | apply paste_silent | apply py_div_silent
            | reflexivity ] ].

Lemma merge_pdfs_removes_only (out input_pdf_path : path) (stream : list Page) :
  removes_only out (merge_pdfs input_pdf_path stream).
Proof. unfold merge_pdfs. removal_frame. Qed.

Lemma add_signatures_removes_only (out input_pdf_path output_pdf_path : path)
    (declaration_type : pystr) (signature_paths : gmap pystr path) :
  removes_only out
    (add_signatures input_pdf_path output_pdf_path declaration_type signature_paths).
Proof.
  unfold add_signatures, poppler_bin. removal_frame.
  - unfold convert_from_path. intros w. case_decide.
    + assert (removes_only out
                (pages <- read_pdf input_pdf_path ;; ret (map rasterize pages))) as Hread
        by removal_frame.
      apply Hread.
    + exists []. by rewrite app_nil_r.
  - repeat case_decide; removal_frame.
Qed.

Lemma adjust_pdf_size_removes_only (out output_pdf_path : path) :
  removes_only out (adjust_pdf_size output_pdf_path).
Proof. unfold adjust_pdf_size, adjust_locals. removal_frame. Qed.

Lemma sign_declaration_removes_only (name id_number : pystr)
    (input_pdf_path output_folder : path) (declaration_type gender : pystr) :
  removes_only (os_path_join output_folder final_filename)
    (sign_declaration name id_number input_pdf_path output_folder declaration_type gender).
Proof.
  unfold sign_declaration. fold final_filename.
  apply removes_only_bind.
  { apply removes_only_silent. intros w. unfold register_hebrew_font.
    by destruct (arial_ttf w). }
  intros _. apply removes_only_bind; [by apply removes_only_silent |]. intros current_date.
  apply removes_only_bind; [apply merge_pdfs_removes_only |]. intros merged_pdf_path.
  apply removes_only_bind; [by apply removes_only_silent |]. intros [|].
  - apply removes_only_bind; [apply removes_only_remove |]. intros _.
    apply removes_only_bind; [unfold SIGNATURE_PATHS; removal_frame |]. intros sp.
    apply removes_only_bind; [apply add_signatures_removes_only |]. intros _.
    apply removes_only_bind; [apply adjust_pdf_size_removes_only |]. intros _.
    by apply removes_only_silent.
  - apply removes_only_bind; [by apply removes_only_silent |]. intros _.
    apply removes_only_bind; [unfold SIGNATURE_PATHS; removal_frame |]. intros sp.
    apply removes_only_bind; [apply add_signatures_removes_only |]. intros _.
    apply removes_only_bind; [apply adjust_pdf_size_removes_only |]. intros _.
    by apply removes_only_silent.
Qed.

(** ** The stages, claim by claim *)

(** C3: the size normaliser computes the horizontal factor 595.28 / width
    and the vertical factor 841.89 / height, and the page it writes is page 0
    scaled in both directions by the horizontal factor alone. *)
Theorem adjust_pdf_size_applies_width_factor_only
    (output_pdf_path : path) (w : World) (page0 : Page) (rest : list Page) :
  files w !! output_pdf_path = Some (FPdf (page0 :: rest)) ->
  fst (mediabox page0) <> 0%Qc -> snd (mediabox page0) <> 0%Qc ->
  output_pdf_path ∉ write_denied w ->
  exists locals,
    adjust_locals page0 w = (inr locals, w) /\
    scale_factor_width locals = (Q2Qc (59528 # 100) / fst (mediabox page0))%Qc /\
    scale_factor_height locals = (Q2Qc (84189 # 100) / snd (mediabox page0))%Qc /\
    scaled_page0 locals =
      mkPage ((fst (mediabox page0) * scale_factor_width locals)%Qc,
              (snd (mediabox page0) * scale_factor_width locals)%Qc)
             [LScaled (scale_factor_width locals) (scale_factor_width locals)
                (content page0)] /\
    adjust_pdf_size output_pdf_path w =
      (inr tt,
       set_files (insert output_pdf_path (FPdf [scaled_page0 locals]))
                 (EvWrite output_pdf_path) w).
Proof.
  intros Hin Hw0 Hh0 Hw.
  exists (mkAdjustLocals (fst (mediabox page0)) (snd (mediabox page0))
            (desired_width / fst (mediabox page0))%Qc
            (desired_height / snd (mediabox page0))%Qc
            (scale_by page0 (desired_width / fst (mediabox page0))%Qc)).
  split.
  - unfold adjust_locals, py_div. rewrite !decide_False by done.
    by unfold bind, ret.
  - repeat split. simpl scaled_page0. by apply adjust_pdf_size_run with (rest := rest).
Qed.

(** C6: the primary signature is resized to 600x600 and pasted on the
    page-0 image at (350, 1320) with itself as mask; the secondary, resized
    to 650x650, is pasted with itself as mask at (-30, 1820) for 'foreigner',
    (-30, 900) for 'company', (-30, 1650) for 'israeli'; for any other
    category only the primary is pasted.  The later pages are kept as
    rasterised. *)
Theorem add_signatures_placement (input_pdf_path output_pdf_path : path)
    (declaration_type : pystr) (signature_paths : gmap pystr path) (w : World)
    (pg : Page) (rest : list Page) (sigp domp : path) (sig_im dom_im : Image) :
  resolved_poppler w ∈ poppler_dirs w ->
  files w !! input_pdf_path = Some (FPdf (pg :: rest)) ->
  signature_paths !! of_ascii "signature" = Some sigp ->
  files w !! sigp = Some (FImage sig_im) -> maskable sig_im = true ->
  signature_paths !! of_ascii "domicar_signature" = Some domp ->
  files w !! domp = Some (FImage dom_im) -> maskable dom_im = true ->
  output_pdf_path ∉ write_denied w ->
  let primary := resize sig_im (600, 600)%Z in
  let secondary := resize dom_im (650, 650)%Z in
  let with_primary :=
    mkImage (raster_size pg) false (PxPaste (PxRaster pg) primary (350, 1320)%Z primary) in
  let with_secondary := fun box =>
    mkImage (raster_size pg) false (PxPaste (px with_primary) secondary box secondary) in
  exists page0,
    add_signatures input_pdf_path output_pdf_path declaration_type signature_paths w =
      (inr tt,
       set_files
         (insert output_pdf_path
            (FPdf (page_of_image page0 :: map page_of_image (map rasterize rest))))
         (EvWrite output_pdf_path) w) /\
    size primary = (600, 600)%Z /\ size secondary = (650, 650)%Z /\
    (declaration_type = of_ascii "foreigner" -> page0 = with_secondary (-30, 1820)%Z) /\
    (declaration_type = of_ascii "company" -> page0 = with_secondary (-30, 900)%Z) /\
    (declaration_type = of_ascii "israeli" -> page0 = with_secondary (-30, 1650)%Z) /\
    (declaration_type <> of_ascii "foreigner" -> declaration_type <> of_ascii "company" ->
     declaration_type <> of_ascii "israeli" -> page0 = with_primary).
Proof.
  intros Hpop Hin Hsp Hsig Hsm Hdp Hdom Hdm Hw primary secondary with_primary with_secondary.
  exists (stamped declaration_type (rasterize pg) primary secondary).
  split.
  - by apply add_signatures_run with (sigp := sigp) (domp := domp).
  - unfold stamped, secondary_box. repeat split.
    + intros ->. by rewrite decide_True.
    + intros ->. rewrite decide_False by done. by rewrite decide_True.
    + intros ->. rewrite !decide_False by done. by rewrite decide_True.
    + intros Hf Hc Hi. by rewrite !decide_False.
Qed.

(** C8: whatever the outcome of a run, the only path it ever removes is the
    target output path.  On a run that finds a file there and succeeds, that
    file is removed after the intermediate file is written and before the
    output is written; the output then holds the new document alone, and the
    intermediate file stays. *)
Theorem sign_declaration_predeletion (name id_number : pystr)
    (input_pdf_path output_folder : path) (declaration_type gender : pystr) (w : World)
    (pg : Page) (rest : list Page) (sig_im dom_im : Image) (old : FileData) :
  let out := os_path_join output_folder final_filename in
  let merged := composite pg (overlay_page w name id_number gender) in
  let page0 := page_of_image (stamped declaration_type (rasterize merged)
                                (resize sig_im (600, 600)%Z) (resize dom_im (650, 650)%Z)) in
  arial_ttf w = true ->
  files w !! input_pdf_path = Some (FPdf (pg :: rest)) ->
  merged_filename ∉ write_denied w ->
  out ∉ write_denied w ->
  resolved_poppler w ∈ poppler_dirs w ->
  files w !! resolved_signature w = Some (FImage sig_im) -> maskable sig_im = true ->
  files w !! resolved_domicar w = Some (FImage dom_im) -> maskable dom_im = true ->
  fst (raster_size merged) <> 0%Z -> snd (raster_size merged) <> 0%Z ->
  files w !! out = Some old ->
  removes_only out
    (sign_declaration name id_number input_pdf_path output_folder declaration_type gender) /\
  exists w',
    sign_declaration name id_number input_pdf_path output_folder declaration_type gender w
      = (inr out, w') /\
    fslog w' = fslog w ++ [EvWrite merged_filename; EvRemove out; EvWrite out; EvWrite out] /\
    files w' =
      <[out := FPdf [scale_by page0 (desired_width / fst (mediabox page0))%Qc]]>
        (<[merged_filename := FPdf [merged]]> (files w)) /\
    files w' !! merged_filename = Some (FPdf [merged]).
Proof.
  intros out merged page0 Hfont Hin Hwm Hwo Hpop Hsig Hsm Hdom Hdm Hrw Hrh Hold.
  split; [apply sign_declaration_removes_only |].
  eexists. split.
  { by apply sign_declaration_run with (sig_im := sig_im) (dom_im := dom_im) (rest := rest). }
  pose proof (output_path_not_merged output_folder) as Hom. fold out in Hom.
  rewrite (after_predeletion_present _ _ old)
    by (simpl; by rewrite lookup_insert_ne).
  simpl. repeat split.
  - by rewrite <- !app_assoc.
  - by rewrite insert_insert_eq, insert_delete_eq.
  - rewrite !lookup_insert_ne by done. rewrite lookup_delete_ne by done.
    by rewrite lookup_insert_eq.
Qed.

(** Every successful run ends with a one-page output whose width is 595.28
    and whose height is the rasterised height times 595.28 over the
    rasterised width. *)
Lemma sign_declaration_output (name id_number : pystr)
    (input_pdf_path output_folder : path) (declaration_type gender : pystr) (w : World)
    (pg : Page) (rest : list Page) (sig_im dom_im : Image) :
  let out := os_path_join output_folder final_filename in
  let merged := composite pg (overlay_page w name id_number gender) in
  arial_ttf w = true ->
  files w !! input_pdf_path = Some (FPdf (pg :: rest)) ->
  merged_filename ∉ write_denied w ->
  out ∉ write_denied w ->
  resolved_poppler w ∈ poppler_dirs w ->
  files w !! resolved_signature w = Some (FImage sig_im) -> maskable sig_im = true ->
  files w !! resolved_domicar w = Some (FImage dom_im) -> maskable dom_im = true ->
  fst (raster_size merged) <> 0%Z -> snd (raster_size merged) <> 0%Z ->
  exists w' final,
    sign_declaration name id_number input_pdf_path output_folder declaration_type gender w
      = (inr out, w') /\
    files w' !! out = Some (FPdf [final]) /\
    fst (mediabox final) = desired_width /\
    snd (mediabox final) =
      (Qc_of_Z (snd (raster_size merged)) * (desired_width / Qc_of_Z (fst (raster_size merged))))%Qc.
Proof.
  intros out merged Hfont Hin Hwm Hwo Hpop Hsig Hsm Hdom Hdm Hrw Hrh.
  eexists. eexists. split.
  { by apply sign_declaration_run with (sig_im := sig_im) (dom_im := dom_im) (rest := rest). }
  simpl files. rewrite lookup_insert_eq. split; [done |].
  unfold scale_by, scale. simpl mediabox. rewrite !size_stamped. simpl.
  split; [| done].
  apply Qcmult_div_r. by apply Qc_of_Z_nonzero.
Qed.

(** ** Further properties of the stages *)

(** X1: for a source with at least one page the merger writes, at
    'signed_declaration.pdf', one page: page 0 of the source with the overlay
    painted over it; no other file changes. *)
Theorem merge_pdfs_composites_first_page (input_pdf_path : path) (w : World)
    (first_page merge_page : Page) (rest rest' : list Page) :
  files w !! input_pdf_path = Some (FPdf (first_page :: rest)) ->
  of_ascii "signed_declaration.pdf" ∉ write_denied w ->
  exists w' merged,
    merge_pdfs input_pdf_path (merge_page :: rest') w
      = (inr (of_ascii "signed_declaration.pdf"), w') /\
    files w' !! of_ascii "signed_declaration.pdf" = Some (FPdf [merged]) /\
    content merged = content first_page ++ content merge_page /\
    (forall p, p <> of_ascii "signed_declaration.pdf" -> files w' !! p = files w !! p) /\
    fslog w' = fslog w ++ [EvWrite (of_ascii "signed_declaration.pdf")].
Proof.
  intros Hin Hw. eexists. exists (composite first_page merge_page). split.
  { by apply merge_pdfs_run with (rest := rest). }
  simpl. repeat split.
  - by rewrite lookup_insert_eq.
  - intros p Hp. by rewrite lookup_insert_ne.
Qed.


(** X3: a source without pages stops the run with IndexError before anything is
    written. *)
Theorem sign_declaration_empty_source (name id_number : pystr)
    (input_pdf_path output_folder : path) (declaration_type gender : pystr) (w : World) :
  arial_ttf w = true ->
  files w !! input_pdf_path = Some (FPdf []) ->
  sign_declaration name id_number input_pdf_path output_folder declaration_type gender w
    = (inl IndexError, w).
Proof.
  intros Hfont Hin. unfold sign_declaration.
  unfold bind at 1. unfold register_hebrew_font. rewrite Hfont.
  unfold bind at 1. cbv beta iota.
  unfold bind at 1. unfold merge_pdfs.
  by rewrite (bind_ok _ _ _ _ _ (read_pdf_ok _ _ _ Hin)).
Qed.

(** X4: without the Arial font the run stops with TTFError at its first step. *)
Theorem sign_declaration_without_font (name id_number : pystr)
    (input_pdf_path output_folder : path) (declaration_type gender : pystr) (w : World) :
  arial_ttf w = false ->
  sign_declaration name id_number input_pdf_path output_folder declaration_type gender w
    = (inl TTFError, w).
Proof.
  intros Hfont. unfold sign_declaration, bind at 1, register_hebrew_font. by rewrite Hfont.
Qed.

(** X5: when no file stands at the output path the run removes nothing. *)
Theorem sign_declaration_fresh_output (name id_number : pystr)
    (input_pdf_path output_folder : path) (declaration_type gender : pystr) (w : World)
    (pg : Page) (rest : list Page) (sig_im dom_im : Image) :
  let out := os_path_join output_folder (of_ascii "final_output_with_signature.pdf") in
  let merged := composite pg (overlay_page w name id_number gender) in
  arial_ttf w = true ->
  files w !! input_pdf_path = Some (FPdf (pg :: rest)) ->
  of_ascii "signed_declaration.pdf" ∉ write_denied w ->
  out ∉ write_denied w ->
  resolved_poppler w ∈ poppler_dirs w ->
  files w !! resolved_signature w = Some (FImage sig_im) -> maskable sig_im = true ->
  files w !! resolved_domicar w = Some (FImage dom_im) -> maskable dom_im = true ->
  fst (raster_size merged) <> 0%Z -> snd (raster_size merged) <> 0%Z ->
  files w !! out = None ->
  exists w',
    sign_declaration name id_number input_pdf_path output_folder declaration_type gender w
      = (inr out, w') /\
    fslog w' = fslog w ++ [EvWrite (of_ascii "signed_declaration.pdf"); EvWrite out; EvWrite out].
Proof.
  intros out merged Hfont Hin Hwm Hwo Hpop Hsig Hsm Hdom Hdm Hrw Hrh Hnone.
  eexists. split.
  { by apply sign_declaration_run with (sig_im := sig_im) (dom_im := dom_im) (rest := rest). }
  pose proof (output_path_not_merged output_folder) as Hom.
  unfold after_predeletion. rewrite bool_decide_eq_false_2.
  - simpl. by rewrite <- !app_assoc.
  - simpl. rewrite lookup_insert_ne by done.
    intros [d Hd]. change (files w !! out = Some d) in Hd. congruence.
Qed.


(** * The rest of the code *)

(** ** How the composed lines render *)

Lemma py_find_occurs (old s : pystr) (i : nat) :
  old <> [] -> py_find old s = Some i -> occurs old s.
Proof.
  intros Hne Hf. destruct (py_find_some old Hne s i Hf) as [Hs _].
  by exists (take i s), (drop (i + length old) s).
Qed.

Lemma py_replace_absent (s old new : pystr) :
  old <> [] -> ~ occurs old s -> py_replace s old new = s.
Proof.
  intros Hne Hno. unfold py_replace. destruct old as [|c old']; [done |].
  apply replace_scan_find_none.
  destruct (py_find (c :: old') s) as [i|] eqn:Hf; [| done].
  exfalso. apply Hno. by apply py_find_occurs with (i := i).
Qed.

Lemma not_occurs_without_head (c : N) (old' s : pystr) :
  c ∉ s -> ~ occurs (c :: old') s.
Proof.
  intros Hc (a & b & ->). apply Hc.
  apply elem_of_app. right. apply elem_of_cons. by left.
Qed.

Lemma py_find_after_clean_prefix (c : N) (old' a b : pystr) :
  c ∉ a -> py_find (c :: old') (a ++ (c :: old') ++ b) = Some (length a).
Proof.
  induction a as [|x a IH]; intros Hc.
  - simpl.
    assert (startswith (c :: old' ++ b) (c :: old') = true) as ->; [| done].
    apply startswith_true. by exists b.
  - simpl. assert (startswith (x :: a ++ c :: old' ++ b) (c :: old') = false) as ->.
    { apply startswith_false. intros [k Hk]. injection Hk as -> _.
      apply Hc. apply elem_of_cons. by left. }
    change (a ++ c :: old' ++ b) with (a ++ (c :: old') ++ b).
    rewrite IH; [done |]. apply not_elem_of_cons in Hc. apply Hc.
Qed.

Lemma py_replace_single (c : N) (old' new a b : pystr) :
  c ∉ a -> c ∉ b ->
  py_replace (a ++ (c :: old') ++ b) (c :: old') new = a ++ new ++ b.
Proof.
  intros Ha Hb. unfold py_replace.
  rewrite (replace_scan_find_some (c :: old') new ltac:(done) _ (length a))
    by (by apply py_find_after_clean_prefix).
  rewrite take_app_length.
  replace (drop (length a + length (c :: old')) (a ++ (c :: old') ++ b)) with b.
  - rewrite replace_scan_find_none; [done |].
    destruct (py_find (c :: old') b) as [i|] eqn:Hf; [| done].
    exfalso. apply (not_occurs_without_head c old' b Hb).
    by apply py_find_occurs with (i := i).
  - rewrite app_assoc, <- length_app. by rewrite drop_app_length.
Qed.

(** X7: in the first composed line the date is rendered in its natural
    order between the reversed fixed texts, for every date whose last
    character occurs in neither fixed text (a digit does not). *)
Theorem first_line_renders_date (current_date name id_number gender : pystr) (c : N) :
  last current_date = Some c -> c ∉ line0_head -> c ∉ line0_tail ->
  exists line rest,
    generate_declaration_text current_date name id_number gender = line :: rest /\
    line = line0_head ++ current_date ++ line0_tail /\
    process_hebrew_text line current_date
      = reverse line0_tail ++ current_date ++ reverse line0_head.
Proof.
  intros Hlast Hh Ht. eexists. eexists. split; [reflexivity |]. split; [reflexivity |].
  apply last_Some in Hlast as [d' ->].
  unfold process_hebrew_text. rewrite !reverse_app. simpl reverse at 2.
  rewrite reverse_singleton, <- app_assoc.
  change ([c] ++ reverse d') with (c :: reverse d').
  apply py_replace_single.
  - by rewrite elem_of_reverse.
  - by rewrite elem_of_reverse.
Qed.



(** ** The overlay page *)





(** ** Category detection *)

Lemma detect_in_texts_range (texts : list pystr) :
  detect_in_texts texts = of_ascii "company" \/
  detect_in_texts texts = of_ascii "foreigner" \/
  detect_in_texts texts = of_ascii "israeli".
Proof.
  induction texts as [|t texts IH]; simpl; [auto |].
  destruct (py_in company_marker t); [auto |].
  destruct (py_in foreigner_marker t); auto.
Qed.

(** X10: category detection changes nothing; it answers 'company',
    'foreigner' or 'israeli' for every PDF, fails with FileNotFoundError
    when the file is missing and with a read error when it is not a PDF. *)
Theorem detect_declaration_type_answers (file_path : path) (w : World) :
  snd (detect_declaration_type file_path w) = w /\
  match fst (detect_declaration_type file_path w) with
  | inr category =>
      (exists pages, files w !! file_path = Some (FPdf pages)) /\
      (category = of_ascii "company" \/ category = of_ascii "foreigner" \/
       category = of_ascii "israeli")
  | inl e =>
      (files w !! file_path = None /\ e = FileNotFoundError) \/
      (exists d, files w !! file_path = Some d /\ (forall pages, d <> FPdf pages) /\
                 e = PdfReadError)
  end.
Proof.
  unfold detect_declaration_type, bind, read_pdf.
  destruct (files w !! file_path) as [[pages|im|]|] eqn:Hf; simpl.
  - split; [done |]. split; [by exists pages | apply detect_in_texts_range].
  - split; [done |]. right. by exists (FImage im).
  - split; [done |]. right. by exists FOther.
  - split; [done |]. by left.
Qed.

(** ** Which files a run touches *)

Lemma writes_only_bind {A B : Type} (allowed : path -> Prop) (m : Py A) (k : A -> Py B) :
  writes_only allowed m -> (forall a, writes_only allowed (k a)) ->
  writes_only allowed (bind m k).
Proof.
  intros Hm Hk w p Hp. specialize (Hm w p Hp). unfold bind.
  destruct (m w) as [[e|a] w1]; simpl in *; [done |].
  by rewrite (Hk a w1 p Hp).
Qed.

Lemma writes_only_silent {A : Type} (allowed : path -> Prop) (m : Py A) :
  (forall w, snd (m w) = w) -> writes_only allowed m.
Proof. intros Hm w p _. by rewrite Hm. Qed.

Lemma writes_only_write (allowed : path -> Prop) (p : path) (d : FileData) :
  allowed p -> writes_only allowed (write_file p d).
Proof.
  intros Hp w q Hq. unfold write_file. case_decide; simpl; [done |].
  apply lookup_insert_ne. by intros ->.
Qed.

Lemma writes_only_remove (allowed : path -> Prop) (p : path) :
  allowed p -> writes_only allowed (os_remove p).
Proof.
  intros Hp w q Hq. unfold os_remove. destruct (files w !! p); simpl; [| done].
  apply lookup_delete_ne. by intros ->.
Qed.

Ltac write_frame :=
  repeat first
    [ apply writes_only_bind; [| intros ?]
    | apply writes_only_write; solve [auto]
    | apply writes_only_remove; solve [auto]
    | apply writes_only_silent; intros ?;
      first [ apply read_pdf_silent | apply image_open_silent | apply index0_silent
            | apply dict_index_silent | apply paste_silent | apply py_div_silent
            | reflexivity ] ].

Lemma merge_pdfs_writes_only (allowed : path -> Prop) (input_pdf_path : path)
    (stream : list Page) :
  allowed (of_ascii "signed_declaration.pdf") ->
  writes_only allowed (merge_pdfs input_pdf_path stream).
Proof. intros Ha. unfold merge_pdfs. write_frame. Qed.

Lemma add_signatures_writes_only (allowed : path -> Prop)
    (input_pdf_path output_pdf_path : path)
    (declaration_type : pystr) (signature_paths : gmap pystr path) :
  allowed output_pdf_path ->
  writes_only allowed
    (add_signatures input_pdf_path output_pdf_path declaration_type signature_paths).
Proof.
  intros Ha. unfold add_signatures, poppler_bin. write_frame.
  - unfold convert_from_path. intros w p Hp. case_decide; [| done].
    assert (writes_only allowed
              (pages <- read_pdf input_pdf_path ;; ret (map rasterize pages))) as Hread
      by write_frame.
    by apply Hread.
  - repeat case_decide; write_frame.
Qed.

Lemma adjust_pdf_size_writes_only (allowed : path -> Prop) (output_pdf_path : path) :
  allowed output_pdf_path -> writes_only allowed (adjust_pdf_size output_pdf_path).
Proof. intros Ha. unfold adjust_pdf_size, adjust_locals. write_frame. Qed.

Lemma sign_declaration_writes_only (name id_number : pystr)
    (input_pdf_path output_folder : path) (declaration_type gender : pystr) :
  writes_only
    (fun p => p = of_ascii "signed_declaration.pdf" \/
              p = os_path_join output_folder (of_ascii "final_output_with_signature.pdf"))
    (sign_declaration name id_number input_pdf_path output_folder declaration_type gender).
Proof.
  unfold sign_declaration.
  apply writes_only_bind.
  { apply writes_only_silent. intros w. unfold register_hebrew_font.
    by destruct (arial_ttf w). }
  intros _. apply writes_only_bind; [by apply writes_only_silent |]. intros current_date.
  apply writes_only_bind; [apply merge_pdfs_writes_only; by left |]. intros merged_pdf_path.
  apply writes_only_bind; [by apply writes_only_silent |]. intros [|].
  - apply writes_only_bind; [apply writes_only_remove; by right |]. intros _.
    apply writes_only_bind; [unfold SIGNATURE_PATHS; write_frame |]. intros sp.
    apply writes_only_bind; [apply add_signatures_writes_only; by right |]. intros _.
    apply writes_only_bind; [apply adjust_pdf_size_writes_only; by right |]. intros _.
    by apply writes_only_silent.
  - apply writes_only_bind; [by apply writes_only_silent |]. intros _.
    apply writes_only_bind; [unfold SIGNATURE_PATHS; write_frame |]. intros sp.
    apply writes_only_bind; [apply add_signatures_writes_only; by right |]. intros _.
    apply writes_only_bind; [apply adjust_pdf_size_writes_only; by right |]. intros _.
    by apply writes_only_silent.
Qed.

(** X11: whatever its outcome, a run changes no file other than
    'signed_declaration.pdf' and the output path; in particular the two
    signature assets are left as they were. *)
Theorem sign_declaration_touches_two_paths (name id_number : pystr)
    (input_pdf_path output_folder : path) (declaration_type gender : pystr) (w : World) :
  let run :=
    sign_declaration name id_number input_pdf_path output_folder declaration_type gender in
  writes_only
    (fun p => p = of_ascii "signed_declaration.pdf" \/
              p = os_path_join output_folder (of_ascii "final_output_with_signature.pdf"))
    run /\
  files (snd (run w)) !! resolved_signature w = files w !! resolved_signature w /\
  files (snd (run w)) !! resolved_domicar w = files w !! resolved_domicar w.
Proof.
  intros run. pose proof (sign_declaration_writes_only name id_number input_pdf_path
                            output_folder declaration_type gender) as Hframe.
  destruct (signature_not_pdf w output_folder) as (Hs1 & Hs2 & Hd1 & Hd2).
  split; [exact Hframe |]. split; apply Hframe; by intros [? | ?].
Qed.

(** ** The size normaliser on degenerate and on normalised pages *)

(** X12: a page 0 without width or without height makes the normaliser fail
    with ZeroDivisionError before it writes, the height case although the
    height factor is never applied. *)
Theorem adjust_pdf_size_degenerate_page (output_pdf_path : path) (w : World)
    (page0 : Page) (rest : list Page) :
  files w !! output_pdf_path = Some (FPdf (page0 :: rest)) ->
  fst (mediabox page0) = 0%Qc \/ snd (mediabox page0) = 0%Qc ->
  adjust_pdf_size output_pdf_path w = (inl ZeroDivisionError, w).
Proof.
  intros Hin Hzero. unfold adjust_pdf_size.
  rewrite (bind_ok _ _ _ _ _ (read_pdf_ok _ _ _ Hin)). simpl index0.
  unfold bind at 1. unfold ret at 1. cbv beta iota.
  unfold adjust_locals, py_div, bind, ret, raise.
  destruct (decide (fst (mediabox page0) = 0%Qc)); [done |].
  destruct Hzero as [? | Hh]; [done |]. by rewrite decide_True.
Qed.




(** ** gui.py: the form handlers *)

Lemma truthy_nonempty (s : pystr) : s <> [] -> truthy s = true.
Proof. by destruct s. Qed.

Lemma save_data_ok (f : Form) (dt : Desktop) :
  app_data_filename ∉ write_denied (dt_world dt) ->
  save_data (entry_name f) (entry_id f) (radio_gender f) (output_folder f) dt =
    (inr tt,
     mkDesktop (set_files (fun fs => fs) (EvWrite app_data_filename) (dt_world dt))
               (Some (JObject (saved_preferences f)))).
Proof. intros Hw. unfold save_data. by rewrite decide_False. Qed.

(** Past the check of the fields and the saving, the handler is the run. *)
Lemma on_begin_button_after_save (f : Form) (dt : Desktop) (p : path) :
  filled f -> file_path f = Some p ->
  app_data_filename ∉ write_denied (dt_world dt) ->
  on_begin_button f dt =
    match sign_declaration (entry_name f) (entry_id f) p (output_folder f)
            (radio_declaration_type f) (radio_gender f)
            (set_files (fun fs => fs) (EvWrite app_data_filename) (dt_world dt)) with
    | (inl e, w') =>
        mkOutcome f (mkDesktop w' (Some (JObject (saved_preferences f)))) [] (Some e)
    | (inr output_pdf_path, w') =>
        mkOutcome f (mkDesktop w' (Some (JObject (saved_preferences f))))
                  [Popen output_pdf_path; ShowInfo process_completed] None
    end.
Proof.
  intros (Hn & Hi & (q & Hq & Hqne) & Ho & Ht & Hg) Hp Hw.
  rewrite Hp in Hq. injection Hq as <-.
  unfold on_begin_button. rewrite Hp.
  rewrite !truthy_nonempty by done. simpl orb. cbv iota.
  rewrite save_data_ok by done. simpl default. simpl dt_world. simpl dt_app_data.
  by destruct (sign_declaration _ _ _ _ _ _ _) as [[e|out] w'].
Qed.

(** X14: when the name, the identifier, the file, the output folder, the
    category or the gender is empty (or no file dialog was ever answered),
    Begin shows 'Please fill in all fields' and does nothing else: nothing is
    saved and no run starts. *)
Theorem on_begin_button_requires_all_fields (f : Form) (dt : Desktop) :
  entry_name f = [] \/ entry_id f = [] \/ file_path f = None \/ file_path f = Some [] \/
  output_folder f = [] \/ radio_declaration_type f = [] \/ radio_gender f = [] ->
  on_begin_button f dt = mkOutcome f dt [ShowError (of_ascii "Please fill in all fields")] None.
Proof.
  intros Hempty. unfold on_begin_button.
  assert (negb (truthy (entry_name f)) || negb (truthy (entry_id f))
          || negb (match file_path f with Some p => truthy p | None => false end)
          || negb (truthy (output_folder f)) || negb (truthy (radio_declaration_type f))
          || negb (truthy (radio_gender f)) = true) as ->; [| done].
  destruct Hempty as [-> | [-> | [-> | [-> | [-> | [-> | ->]]]]]]; simpl;
    rewrite ?orb_true_r; done.
Qed.

(** X15: when every field is filled but 'app_data.json' cannot be written,
    Begin shows the error of the failed save and stops: the run is not
    started and nothing changes. *)
Theorem on_begin_button_save_failure (f : Form) (dt : Desktop) :
  filled f ->
  of_ascii "app_data.json" ∈ write_denied (dt_world dt) ->
  on_begin_button f dt = mkOutcome f dt [ShowErrorOf OSError] None.
Proof.
  intros (Hn & Hi & (q & Hq & Hqne) & Ho & Ht & Hg) Hw.
  unfold on_begin_button. rewrite Hq.
  rewrite !truthy_nonempty by done. simpl orb. cbv iota.
  unfold save_data. by rewrite decide_True.
Qed.

Lemma saved_preferences_lookup (f : Form) :
  saved_preferences f !! of_ascii "name" = Some (entry_name f) /\
  saved_preferences f !! of_ascii "id" = Some (entry_id f) /\
  saved_preferences f !! of_ascii "gender" = Some (radio_gender f) /\
  saved_preferences f !! of_ascii "output_folder" = Some (output_folder f).
Proof.
  unfold saved_preferences.
  repeat split; repeat (rewrite lookup_insert_ne by done);
    first [by rewrite lookup_insert_eq | by rewrite lookup_singleton_eq].
Qed.

(** X16: once Begin passed the check of the fields and saved, the
    preferences survive whatever the run does: [load_data] returns the name,
    the identifier, the gender and the output folder of the form, and a
    restarted [main] shows them again, with the category back at 'person' and
    no file chosen.  The handler then either lets the run's exception escape
    showing nothing, or opens the output and shows 'Process completed'. *)
Theorem on_begin_button_persists_preferences (f : Form) (dt : Desktop) :
  filled f ->
  of_ascii "app_data.json" ∉ write_denied (dt_world dt) ->
  let oc := on_begin_button f dt in
  exists data,
    load_data (oc_desktop oc) = inr data /\
    initial_form data =
      mkForm (entry_name f) (entry_id f) (of_ascii "person") (radio_gender f) None
             (output_folder f) /\
    oc_form oc = f /\
    ((exists e, oc_raised oc = Some e /\ oc_actions oc = []) \/
     (exists out, oc_raised oc = None /\
                  oc_actions oc = [Popen out; ShowInfo (of_ascii "Process completed")])).
Proof.
  intros Hfilled Hw oc. destruct Hfilled as (Hn & Hi & (q & Hq & Hqne) & Ho & Ht & Hg).
  assert (filled f) as Hfilled by (repeat split; eauto).
  exists (saved_preferences f).
  destruct (saved_preferences_lookup f) as (Ln & Li & Lg & Lo).
  assert (initial_form (saved_preferences f) =
            mkForm (entry_name f) (entry_id f) (of_ascii "person") (radio_gender f) None
                   (output_folder f)) as Hinit.
  { unfold initial_form, dict_get. by rewrite Ln, Li, Lg, Lo. }
  unfold oc. rewrite (on_begin_button_after_save f dt q Hfilled Hq Hw).
  destruct (sign_declaration _ _ _ _ _ _ _) as [[e|out] w']; simpl.
  - split; [reflexivity |]. split; [exact Hinit |]. split; [reflexivity |].
    left. by exists e.
  - split; [reflexivity |]. split; [exact Hinit |]. split; [reflexivity |].
    right. by exists out.
Qed.

(** X17: with every field filled and the preconditions of the run met,
    Begin saves the preferences first, then signs: the output folder holds
    the stamped page scaled by the width factor, the handler opens it and
    shows 'Process completed', and the log starts with the write of
    'app_data.json' followed by that of 'signed_declaration.pdf'.  With the
    category left at 'person', the value of the Person button, the page
    carries the primary signature alone. *)
Theorem on_begin_button_signs (f : Form) (dt : Desktop) (source : path)
    (pg : Page) (rest : list Page) (sig_im dom_im : Image) :
  let w := dt_world dt in
  let out := os_path_join (output_folder f) (of_ascii "final_output_with_signature.pdf") in
  let merged := composite pg (overlay_page w (entry_name f) (entry_id f) (radio_gender f)) in
  let primary := resize sig_im (600, 600)%Z in
  let secondary := resize dom_im (650, 650)%Z in
  filled f -> file_path f = Some source ->
  of_ascii "app_data.json" ∉ write_denied w ->
  arial_ttf w = true ->
  files w !! source = Some (FPdf (pg :: rest)) ->
  of_ascii "signed_declaration.pdf" ∉ write_denied w ->
  out ∉ write_denied w ->
  resolved_poppler w ∈ poppler_dirs w ->
  files w !! resolved_signature w = Some (FImage sig_im) -> maskable sig_im = true ->
  files w !! resolved_domicar w = Some (FImage dom_im) -> maskable dom_im = true ->
  fst (raster_size merged) <> 0%Z -> snd (raster_size merged) <> 0%Z ->
  exists w' image evs,
    on_begin_button f dt =
      mkOutcome f (mkDesktop w' (Some (JObject (saved_preferences f))))
                [Popen out; ShowInfo (of_ascii "Process completed")] None /\
    files w' !! out =
      Some (FPdf [scale_by (page_of_image image)
                    (Q2Qc (59528 # 100) / Qc_of_Z (fst (raster_size merged)))%Qc]) /\
    image = stamped (radio_declaration_type f) (rasterize merged) primary secondary /\
    (radio_declaration_type f = of_ascii "person" ->
     image = mkImage (raster_size merged) false
               (PxPaste (PxRaster merged) primary (350, 1320)%Z primary)) /\
    fslog w' = fslog w ++ EvWrite (of_ascii "app_data.json")
                 :: EvWrite (of_ascii "signed_declaration.pdf") :: evs.
Proof.
  intros w out merged primary secondary Hfilled Hsrc Hwa Hfont Hin Hwm Hwo Hpop
         Hsig Hsm Hdom Hdm Hrw Hrh.
  set (ws := set_files (fun fs => fs) (EvWrite app_data_filename) w).
  pose proof (sign_declaration_run (entry_name f) (entry_id f) source (output_folder f)
                (radio_declaration_type f) (radio_gender f) ws pg rest sig_im dom_im
                Hfont Hin Hwm Hwo Hpop Hsig Hsm Hdom Hdm Hrw Hrh) as Hrun.
  cbv zeta in Hrun.
  rewrite (on_begin_button_after_save f dt source Hfilled Hsrc Hwa).
  fold w. fold ws. rewrite Hrun.
  unfold after_predeletion. case_bool_decide.
  all: eexists;
    exists (stamped (radio_declaration_type f) (rasterize merged) primary secondary);
    eexists; split; [reflexivity |]; split;
    [ simpl files; rewrite lookup_insert_eq; rewrite size_stamped; reflexivity |];
    split; [reflexivity |]; split; [intros ->; reflexivity |];
    simpl; rewrite <- !app_assoc; reflexivity.
Qed.

(** X18: a cancelled file dialog replaces the file chosen before by the
    empty path and leaves everything else alone, so that the next Begin
    answers 'Please fill in all fields' whatever the form held. *)
Theorem ask_for_file_cancelled (f : Form) (dt dt' : Desktop) :
  let oc := ask_for_file [] f dt in
  oc_form oc =
    mkForm (entry_name f) (entry_id f) (radio_declaration_type f) (radio_gender f)
           (Some []) (output_folder f) /\
  oc_desktop oc = dt /\ oc_actions oc = [] /\ oc_raised oc = None /\
  on_begin_button (oc_form oc) dt' =
    mkOutcome (oc_form oc) dt' [ShowError (of_ascii "Please fill in all fields")] None.
Proof.
  intros oc. repeat split. unfold oc, ask_for_file, on_begin_button. simpl.
  by rewrite !orb_true_r.
Qed.

(** X19: a file dialog answered with a path records the path even when the
    detection fails.  For a readable PDF the category button is set to the
    detected 'company', 'foreigner' or 'israeli'; otherwise the exception
    escapes and the category stays.  Nothing else changes. *)
Theorem ask_for_file_chosen (chosen : path) (f : Form) (dt : Desktop) :
  chosen <> [] ->
  let oc := ask_for_file chosen f dt in
  file_path (oc_form oc) = Some chosen /\
  entry_name (oc_form oc) = entry_name f /\ entry_id (oc_form oc) = entry_id f /\
  radio_gender (oc_form oc) = radio_gender f /\
  output_folder (oc_form oc) = output_folder f /\
  oc_desktop oc = dt /\ oc_actions oc = [] /\
  match files (dt_world dt) !! chosen with
  | Some (FPdf pages) =>
      oc_raised oc = None /\
      radio_declaration_type (oc_form oc) = detect_in_texts (map extract_text pages) /\
      (radio_declaration_type (oc_form oc) = of_ascii "company" \/
       radio_declaration_type (oc_form oc) = of_ascii "foreigner" \/
       radio_declaration_type (oc_form oc) = of_ascii "israeli")
  | _ =>
      (exists e, oc_raised oc = Some e) /\
      radio_declaration_type (oc_form oc) = radio_declaration_type f
  end.
Proof.
  intros Hne oc. unfold oc, ask_for_file. rewrite truthy_nonempty by done.
  unfold detect_declaration_type, bind, read_pdf. destruct dt as [w data]. simpl dt_world.
  destruct (files w !! chosen) as [[pages|im|]|]; simpl; repeat split; eauto.
  apply detect_in_texts_range.
Qed.

(** X20: right after the start no file is chosen, so Begin answers 'Please
    fill in all fields' whatever preferences were loaded; without an
    'app_data.json' the form starts empty with the category at 'person', and
    a file that is not JSON stops the start with a ValueError. *)
Theorem on_begin_button_right_after_start :
  (forall data dt,
     on_begin_button (initial_form data) dt =
       mkOutcome (initial_form data) dt
         [ShowError (of_ascii "Please fill in all fields")] None) /\
  (forall w, load_data (mkDesktop w None) = inr ∅) /\
  initial_form ∅ = mkForm [] [] (of_ascii "person") [] None [] /\
  (forall w, load_data (mkDesktop w (Some JNotJson)) = inl ValueError).
Proof.
  split; [| split; [done | split; [| done]]].
  - intros data dt. unfold on_begin_button. simpl file_path. cbv iota.
    by rewrite !orb_true_r.
  - unfold initial_form, dict_get. by rewrite !lookup_empty.
Qed.

(** X21: processing a line twice gives the line back when the date is
    empty, or when neither the date nor the reversed date occurs in it. *)
Theorem process_hebrew_text_twice (line current_date : pystr) :
  current_date = [] \/
  (~ occurs current_date line /\ ~ occurs (reverse current_date) line) ->
  process_hebrew_text (process_hebrew_text line current_date) current_date = line.
Proof.
  intros [-> | [Hdate Hrev]].
  - unfold process_hebrew_text, py_replace. simpl.
    by rewrite !concat_singletons, reverse_involutive.
  - destruct current_date as [|c d].
    { exfalso. apply Hdate. by exists [], line. }
    assert (reverse (c :: d) <> []) as Hne by (by apply reverse_nonempty).
    unfold process_hebrew_text.
    rewrite (py_replace_absent (reverse line)); [| done |].
    + rewrite reverse_involutive. by apply py_replace_absent.
    + intros Hocc. apply Hdate. apply occurs_reverse in Hocc.
      by rewrite !reverse_involutive in Hocc.
Qed.

End Pipeline.

(** * The model run on concrete inputs *)

Ltac lookup_by_computation := vm_compute; reflexivity.

Lemma nothing_denied (p : path) (source : list Page) (extra : gmap path FileData) :
  p ∉ write_denied (world_with source extra).
Proof. apply not_elem_of_empty. Qed.

Lemma default_poppler_present (source : list Page) (extra : gmap path FileData) :
  resolved_poppler (world_with source extra) ∈ poppler_dirs (world_with source extra).
Proof.
  change (of_ascii "poppler-23.05.0/Library/bin"
            ∈ ({[ of_ascii "poppler-23.05.0/Library/bin" ]} : gset path)).
  by apply elem_of_singleton_2.
Qed.

(** C1 (the code): on a two-page source the merger composites the overlay
    over page 0 and writes the intermediate file with that page alone; the
    second page of the source is not in it. *)
Lemma merge_pdfs_two_page_source :
  files two_page_world !! input_path = Some (FPdf [letter_page; second_page]) /\
  merge_pdfs enclosing_box input_path
    (create_declaration_pdf monospace_width
       (generate_declaration_text caseless_lower sample_date avi (reverse sample_id)
          (of_ascii "male"))
       sample_date)
    two_page_world
  = (inr (of_ascii "signed_declaration.pdf"),
     set_files
       (insert (of_ascii "signed_declaration.pdf")
          (FPdf [mkPage letter
                   (LOriginal 0
                    :: draw_lines monospace_width sample_date
                         (generate_declaration_text caseless_lower sample_date avi
                            (reverse sample_id) (of_ascii "male"))
                         (Qc_of_Z 300))]))
       (EvWrite (of_ascii "signed_declaration.pdf")) two_page_world).
Proof.
  split; [lookup_by_computation |].
  unfold create_declaration_pdf.
  rewrite (merge_pdfs_run enclosing_box input_path two_page_world letter_page _ [second_page] []).
  - unfold composite, merged_filename. reflexivity.
  - lookup_by_computation.
  - apply nothing_denied.
Qed.

(** C4 (the code): on a one-page US-letter source the run returns the
    path in the output folder and writes one page there, 595.28 wide and
    327404/425 (about 770.36) high, not 841.89. *)
Lemma sign_declaration_letter_source :
  files letter_world !! input_path = Some (FPdf [letter_page]) /\
  exists w' final,
    sign_declaration caseless_lower monospace_width enclosing_box raster_200dpi
      avi sample_id input_path output_dir (of_ascii "israeli") (of_ascii "male") letter_world
      = (inr final_path, w') /\
    files w' !! final_path = Some (FPdf [final]) /\
    mediabox final = (Q2Qc (59528 # 100), Q2Qc (327404 # 425)) /\
    Q2Qc (327404 # 425) <> Q2Qc (84189 # 100).
Proof.
  split; [lookup_by_computation |].
  destruct (sign_declaration_output caseless_lower monospace_width enclosing_box raster_200dpi
              avi sample_id input_path output_dir (of_ascii "israeli") (of_ascii "male")
              letter_world letter_page []
              (mkImage (800, 400)%Z true (PxFile signature_file))
              (mkImage (500, 500)%Z true (PxFile domicar_file)))
    as (w' & final & Hrun & Hfile & Hwidth & Hheight);
    try done; try apply nothing_denied; try apply default_poppler_present;
    try lookup_by_computation.
  exists w', final. repeat split.
  - exact Hrun.
  - exact Hfile.
  - destruct (mediabox final) as [fw fh]. simpl in Hwidth, Hheight. subst fw fh.
    f_equal; apply Qc_is_canon; vm_compute; reflexivity.
  - intros Heq. apply Q2Qc_eq_iff in Heq. vm_compute in Heq. discriminate.
Qed.

(** C2, counterexample: the company marker stands on page 2 of the
    document, the foreigner marker on page 1, and the answer is 'foreigner'. *)
Lemma detect_declaration_type_company_on_later_page :
  files marker_world !! input_path = Some (FPdf [foreigner_text_page; company_text_page]) /\
  occurs company_marker (drawn_text company_text_page) /\
  detect_declaration_type drawn_text input_path marker_world
    = (inr (of_ascii "foreigner"), marker_world) /\
  of_ascii "foreigner" <> of_ascii "company".
Proof.
  split; [lookup_by_computation |]. split; [by exists [], [] |].
  split; [lookup_by_computation | done].
Qed.

(** C2, witness. *)
Lemma detect_declaration_type_first_marker_witness :
  files marker_world !! input_path = Some (FPdf [foreigner_text_page; company_text_page]) /\
  exists category,
    detect_declaration_type drawn_text input_path marker_world = (inr category, marker_world) /\
    (Forall no_marker (map drawn_text [foreigner_text_page; company_text_page]) ->
     category = of_ascii "israeli") /\
    (forall pre pg post,
       [foreigner_text_page; company_text_page] = pre ++ pg :: post ->
       Forall no_marker (map drawn_text pre) ->
       (occurs company_marker (drawn_text pg) -> category = of_ascii "company") /\
       (~ occurs company_marker (drawn_text pg) ->
        occurs foreigner_marker (drawn_text pg) -> category = of_ascii "foreigner")).
Proof.
  split; [lookup_by_computation |].
  apply (detect_declaration_type_first_marker drawn_text input_path marker_world
           [foreigner_text_page; company_text_page]).
  lookup_by_computation.
Defined.

(** C7, counterexample: 'FEMALE' is neither 'male' nor 'female', and the
    lines are those of the female term set, which differ from the male ones. *)
Lemma generate_declaration_text_uppercase_female :
  of_ascii "FEMALE" <> of_ascii "male" /\
  of_ascii "FEMALE" <> of_ascii "female" /\
  generate_declaration_text caseless_lower sample_date avi sample_id (of_ascii "FEMALE")
    = declaration_text_lines female_terms sample_date avi sample_id /\
  declaration_text_lines female_terms sample_date avi sample_id
    <> declaration_text_lines male_terms sample_date avi sample_id.
Proof. repeat split; done. Qed.

(** C10, witness. *)
Lemma generate_declaration_text_case_insensitive_witness :
  case_variant (of_ascii "FEMALE") (of_ascii "female") /\
  generate_declaration_text caseless_lower sample_date avi sample_id (of_ascii "FEMALE")
    = generate_declaration_text caseless_lower sample_date avi sample_id (of_ascii "female").
Proof.
  assert (case_variant (of_ascii "FEMALE") (of_ascii "female")) as Hcv.
  { unfold case_variant. simpl.
    repeat (apply List.Forall2_cons; [right; split; [lia | reflexivity] |]).
    apply List.Forall2_nil. }
  split; [exact Hcv |].
  apply (generate_declaration_text_case_insensitive caseless_lower
           sample_date avi sample_id (of_ascii "FEMALE") (of_ascii "female")).
  - right. reflexivity.
  - exact Hcv.
Defined.

(** C3, witness: a 1700 x 2200 page. *)
Lemma adjust_pdf_size_applies_width_factor_only_witness :
  files stamping_world !! final_path = Some (FPdf [rasterised_letter_page]) /\
  exists locals,
    adjust_locals rasterised_letter_page stamping_world = (inr locals, stamping_world) /\
    scale_factor_width locals = (Q2Qc (59528 # 100) / fst (mediabox rasterised_letter_page))%Qc /\
    scale_factor_height locals = (Q2Qc (84189 # 100) / snd (mediabox rasterised_letter_page))%Qc /\
    scaled_page0 locals =
      mkPage ((fst (mediabox rasterised_letter_page) * scale_factor_width locals)%Qc,
              (snd (mediabox rasterised_letter_page) * scale_factor_width locals)%Qc)
             [LScaled (scale_factor_width locals) (scale_factor_width locals)
                (content rasterised_letter_page)] /\
    adjust_pdf_size final_path stamping_world =
      (inr tt,
       set_files (insert final_path (FPdf [scaled_page0 locals]))
                 (EvWrite final_path) stamping_world).
Proof.
  split; [lookup_by_computation |].
  apply (adjust_pdf_size_applies_width_factor_only final_path stamping_world
           rasterised_letter_page []).
  - lookup_by_computation.
  - apply Qc_of_Z_nonzero. lia.
  - apply Qc_of_Z_nonzero. lia.
  - apply nothing_denied.
Defined.

(** C6, witness: a company declaration. *)
Lemma add_signatures_placement_witness :
  files stamping_world !! of_ascii "signed_declaration.pdf"
    = Some (FPdf [letter_page; second_page]) /\
  let primary := resize (mkImage (800, 400)%Z true (PxFile signature_file)) (600, 600)%Z in
  let secondary := resize (mkImage (500, 500)%Z true (PxFile domicar_file)) (650, 650)%Z in
  let with_primary :=
    mkImage (raster_200dpi letter_page) false
      (PxPaste (PxRaster letter_page) primary (350, 1320)%Z primary) in
  let with_secondary := fun box =>
    mkImage (raster_200dpi letter_page) false
      (PxPaste (px with_primary) secondary box secondary) in
  exists page0,
    add_signatures raster_200dpi (of_ascii "signed_declaration.pdf") final_path
      (of_ascii "company") sample_signature_paths stamping_world =
      (inr tt,
       set_files
         (insert final_path
            (FPdf (page_of_image page0
                   :: map page_of_image (map (rasterize raster_200dpi) [second_page]))))
         (EvWrite final_path) stamping_world) /\
    size primary = (600, 600)%Z /\ size secondary = (650, 650)%Z /\
    (of_ascii "company" = of_ascii "foreigner" -> page0 = with_secondary (-30, 1820)%Z) /\
    (of_ascii "company" = of_ascii "company" -> page0 = with_secondary (-30, 900)%Z) /\
    (of_ascii "company" = of_ascii "israeli" -> page0 = with_secondary (-30, 1650)%Z) /\
    (of_ascii "company" <> of_ascii "foreigner" -> of_ascii "company" <> of_ascii "company" ->
     of_ascii "company" <> of_ascii "israeli" -> page0 = with_primary).
Proof.
  split; [lookup_by_computation |].
  apply (add_signatures_placement raster_200dpi (of_ascii "signed_declaration.pdf") final_path
           (of_ascii "company") sample_signature_paths stamping_world
           letter_page [second_page] signature_file domicar_file
           (mkImage (800, 400)%Z true (PxFile signature_file))
           (mkImage (500, 500)%Z true (PxFile domicar_file))).
  - apply default_poppler_present.
  - lookup_by_computation.
  - lookup_by_computation.
  - lookup_by_computation.
  - reflexivity.
  - lookup_by_computation.
  - lookup_by_computation.
  - reflexivity.
  - apply nothing_denied.
Defined.

(** C8, witness: a second run over a stale output file. *)
Lemma sign_declaration_predeletion_witness :
  files rerun_world !! final_path = Some stale_output /\
  let out := os_path_join output_dir final_filename in
  let merged :=
    composite enclosing_box letter_page
      (overlay_page caseless_lower monospace_width rerun_world avi sample_id (of_ascii "male")) in
  let page0 :=
    page_of_image
      (stamped (of_ascii "israeli") (rasterize raster_200dpi merged)
         (resize (mkImage (800, 400)%Z true (PxFile signature_file)) (600, 600)%Z)
         (resize (mkImage (500, 500)%Z true (PxFile domicar_file)) (650, 650)%Z)) in
  removes_only out
    (sign_declaration caseless_lower monospace_width enclosing_box raster_200dpi
       avi sample_id input_path output_dir (of_ascii "israeli") (of_ascii "male")) /\
  exists w',
    sign_declaration caseless_lower monospace_width enclosing_box raster_200dpi
      avi sample_id input_path output_dir (of_ascii "israeli") (of_ascii "male") rerun_world
      = (inr out, w') /\
    fslog w' = fslog rerun_world
                 ++ [EvWrite merged_filename; EvRemove out; EvWrite out; EvWrite out] /\
    files w' =
      <[out := FPdf [scale_by page0 (desired_width / fst (mediabox page0))%Qc]]>
        (<[merged_filename := FPdf [merged]]> (files rerun_world)) /\
    files w' !! merged_filename = Some (FPdf [merged]).
Proof.
  split; [lookup_by_computation |].
  apply (sign_declaration_predeletion caseless_lower monospace_width enclosing_box
           raster_200dpi avi sample_id input_path output_dir (of_ascii "israeli")
           (of_ascii "male") rerun_world letter_page []
           (mkImage (800, 400)%Z true (PxFile signature_file))
           (mkImage (500, 500)%Z true (PxFile domicar_file)) stale_output).
  - reflexivity.
  - lookup_by_computation.
  - apply nothing_denied.
  - apply nothing_denied.
  - apply default_poppler_present.
  - lookup_by_computation.
  - reflexivity.
  - lookup_by_computation.
  - reflexivity.
  - vm_compute. discriminate.
  - vm_compute. discriminate.
  - lookup_by_computation.
Defined.

(** ** Witnesses of the further properties *)

Lemma merge_pdfs_composites_first_page_witness :
  files two_page_world !! input_path = Some (FPdf [letter_page; second_page]) /\
  exists w' merged,
    merge_pdfs enclosing_box input_path [company_text_page] two_page_world
      = (inr (of_ascii "signed_declaration.pdf"), w') /\
    files w' !! of_ascii "signed_declaration.pdf" = Some (FPdf [merged]) /\
    content merged = content letter_page ++ content company_text_page /\
    (forall p, p <> of_ascii "signed_declaration.pdf" ->
               files w' !! p = files two_page_world !! p) /\
    fslog w' = fslog two_page_world ++ [EvWrite (of_ascii "signed_declaration.pdf")].
Proof.
  split; [lookup_by_computation |].
  apply (merge_pdfs_composites_first_page enclosing_box input_path two_page_world
           letter_page company_text_page [second_page] []).
  - lookup_by_computation.
  - apply nothing_denied.
Defined.


Lemma sign_declaration_empty_source_witness :
  files empty_source_world !! input_path = Some (FPdf []) /\
  sign_declaration caseless_lower monospace_width enclosing_box raster_200dpi
    avi sample_id input_path output_dir (of_ascii "israeli") (of_ascii "male")
    empty_source_world
  = (inl IndexError, empty_source_world).
Proof.
  split; [lookup_by_computation |].
  apply (sign_declaration_empty_source caseless_lower monospace_width enclosing_box
           raster_200dpi avi sample_id input_path output_dir (of_ascii "israeli")
           (of_ascii "male") empty_source_world).
  - reflexivity.
  - lookup_by_computation.
Defined.

Lemma sign_declaration_without_font_witness :
  arial_ttf fontless_world = false /\
  sign_declaration caseless_lower monospace_width enclosing_box raster_200dpi
    avi sample_id input_path output_dir (of_ascii "israeli") (of_ascii "male") fontless_world
  = (inl TTFError, fontless_world).
Proof.
  split; [reflexivity |].
  apply (sign_declaration_without_font caseless_lower monospace_width enclosing_box
           raster_200dpi avi sample_id input_path output_dir (of_ascii "israeli")
           (of_ascii "male") fontless_world).
  reflexivity.
Defined.

Lemma sign_declaration_fresh_output_witness :
  files letter_world !! final_path = None /\
  exists w',
    sign_declaration caseless_lower monospace_width enclosing_box raster_200dpi
      avi sample_id input_path output_dir (of_ascii "israeli") (of_ascii "male") letter_world
      = (inr (os_path_join output_dir (of_ascii "final_output_with_signature.pdf")), w') /\
    fslog w' = fslog letter_world
                 ++ [EvWrite (of_ascii "signed_declaration.pdf");
                     EvWrite (os_path_join output_dir (of_ascii "final_output_with_signature.pdf"));
                     EvWrite (os_path_join output_dir (of_ascii "final_output_with_signature.pdf"))].
Proof.
  split; [lookup_by_computation |].
  apply (sign_declaration_fresh_output caseless_lower monospace_width enclosing_box
           raster_200dpi avi sample_id input_path output_dir (of_ascii "israeli")
           (of_ascii "male") letter_world letter_page []
           (mkImage (800, 400)%Z true (PxFile signature_file))
           (mkImage (500, 500)%Z true (PxFile domicar_file))).
  - reflexivity.
  - lookup_by_computation.
  - apply nothing_denied.
  - apply nothing_denied.
  - apply default_poppler_present.
  - lookup_by_computation.
  - reflexivity.
  - lookup_by_computation.
  - reflexivity.
  - vm_compute. discriminate.
  - vm_compute. discriminate.
  - lookup_by_computation.
Defined.


(** ** Witnesses for the rest of the code *)

Lemma digit_six_absent :
  ((54 : N) ∉ line0_head) /\ ((54 : N) ∉ line0_tail).
Proof.
  split; intros Hin; apply list_elem_of_In in Hin; simpl in Hin;
    repeat (destruct Hin as [Hin | Hin]; [discriminate Hin |]); exact Hin.
Qed.

Lemma first_line_renders_date_witness :
  last sample_date = Some 54 /\
  exists line rest,
    generate_declaration_text caseless_lower sample_date avi (reverse sample_id)
      (of_ascii "male") = line :: rest /\
    line = line0_head ++ sample_date ++ line0_tail /\
    process_hebrew_text line sample_date
      = reverse line0_tail ++ sample_date ++ reverse line0_head.
Proof.
  split; [reflexivity |].
  apply (first_line_renders_date caseless_lower sample_date avi (reverse sample_id)
           (of_ascii "male") 54).
  - reflexivity.
  - apply digit_six_absent.
  - apply digit_six_absent.
Defined.


Lemma adjust_pdf_size_degenerate_page_witness :
  snd (mediabox flat_page) = 0%Qc /\ fst (mediabox flat_page) <> 0%Qc /\
  adjust_pdf_size final_path flat_world = (inl ZeroDivisionError, flat_world).
Proof.
  split; [reflexivity |]. split; [apply Qc_of_Z_nonzero; lia |].
  apply (adjust_pdf_size_degenerate_page final_path flat_world flat_page []).
  - lookup_by_computation.
  - right. reflexivity.
Defined.


Lemma filled_form_filled : filled filled_form.
Proof.
  unfold filled. split; [done |]. split; [done |].
  split; [by exists input_path |]. done.
Qed.

Lemma on_begin_button_requires_all_fields_witness :
  entry_name nameless_form = [] /\
  on_begin_button caseless_lower monospace_width enclosing_box raster_200dpi
    nameless_form letter_desktop
  = mkOutcome nameless_form letter_desktop
      [ShowError (of_ascii "Please fill in all fields")] None.
Proof.
  split; [reflexivity |].
  apply (on_begin_button_requires_all_fields caseless_lower monospace_width enclosing_box
           raster_200dpi nameless_form letter_desktop).
  left. reflexivity.
Defined.

Lemma on_begin_button_save_failure_witness :
  filled filled_form /\
  on_begin_button caseless_lower monospace_width enclosing_box raster_200dpi
    filled_form locked_desktop
  = mkOutcome filled_form locked_desktop [ShowErrorOf OSError] None.
Proof.
  split; [apply filled_form_filled |].
  apply (on_begin_button_save_failure caseless_lower monospace_width enclosing_box
           raster_200dpi filled_form locked_desktop).
  - apply filled_form_filled.
  - change (of_ascii "app_data.json" ∈ ({[ of_ascii "app_data.json" ]} : gset path)).
    by apply elem_of_singleton_2.
Defined.

Lemma on_begin_button_persists_preferences_witness :
  filled filled_form /\
  let oc := on_begin_button caseless_lower monospace_width enclosing_box raster_200dpi
              filled_form empty_source_desktop in
  exists data,
    load_data (oc_desktop oc) = inr data /\
    initial_form data =
      mkForm (entry_name filled_form) (entry_id filled_form) (of_ascii "person")
             (radio_gender filled_form) None (output_folder filled_form) /\
    oc_form oc = filled_form /\
    ((exists e, oc_raised oc = Some e /\ oc_actions oc = []) \/
     (exists out, oc_raised oc = None /\
                  oc_actions oc = [Popen out; ShowInfo (of_ascii "Process completed")])).
Proof.
  split; [apply filled_form_filled |].
  apply (on_begin_button_persists_preferences caseless_lower monospace_width enclosing_box
           raster_200dpi filled_form empty_source_desktop).
  - apply filled_form_filled.
  - apply not_elem_of_empty.
Defined.

Lemma on_begin_button_signs_witness :
  radio_declaration_type filled_form = of_ascii "person" /\
  let w := letter_world in
  let out := os_path_join output_dir (of_ascii "final_output_with_signature.pdf") in
  let merged :=
    composite enclosing_box letter_page
      (overlay_page caseless_lower monospace_width w avi sample_id (of_ascii "male")) in
  let primary := resize (mkImage (800, 400)%Z true (PxFile signature_file)) (600, 600)%Z in
  let secondary := resize (mkImage (500, 500)%Z true (PxFile domicar_file)) (650, 650)%Z in
  exists w' image evs,
    on_begin_button caseless_lower monospace_width enclosing_box raster_200dpi
      filled_form letter_desktop =
      mkOutcome filled_form (mkDesktop w' (Some (JObject (saved_preferences filled_form))))
                [Popen out; ShowInfo (of_ascii "Process completed")] None /\
    files w' !! out =
      Some (FPdf [scale_by (page_of_image image)
                    (Q2Qc (59528 # 100) / Qc_of_Z (fst (raster_200dpi merged)))%Qc]) /\
    image = stamped (of_ascii "person") (rasterize raster_200dpi merged) primary secondary /\
    (of_ascii "person" = of_ascii "person" ->
     image = mkImage (raster_200dpi merged) false
               (PxPaste (PxRaster merged) primary (350, 1320)%Z primary)) /\
    fslog w' = fslog w ++ EvWrite (of_ascii "app_data.json")
                 :: EvWrite (of_ascii "signed_declaration.pdf") :: evs.
Proof.
  split; [reflexivity |].
  apply (on_begin_button_signs caseless_lower monospace_width enclosing_box raster_200dpi
           filled_form letter_desktop input_path letter_page []
           (mkImage (800, 400)%Z true (PxFile signature_file))
           (mkImage (500, 500)%Z true (PxFile domicar_file))).
  - apply filled_form_filled.
  - reflexivity.
  - apply nothing_denied.
  - reflexivity.
  - lookup_by_computation.
  - apply nothing_denied.
  - apply nothing_denied.
  - apply default_poppler_present.
  - lookup_by_computation.
  - reflexivity.
  - lookup_by_computation.
  - reflexivity.
  - vm_compute. discriminate.
  - vm_compute. discriminate.
Defined.

Lemma ask_for_file_chosen_witness :
  files (dt_world marker_desktop) !! input_path
    = Some (FPdf [foreigner_text_page; company_text_page]) /\
  let oc := ask_for_file drawn_text input_path filled_form marker_desktop in
  file_path (oc_form oc) = Some input_path /\
  entry_name (oc_form oc) = entry_name filled_form /\
  entry_id (oc_form oc) = entry_id filled_form /\
  radio_gender (oc_form oc) = radio_gender filled_form /\
  output_folder (oc_form oc) = output_folder filled_form /\
  oc_desktop oc = marker_desktop /\ oc_actions oc = [] /\
  match files (dt_world marker_desktop) !! input_path with
  | Some (FPdf pages) =>
      oc_raised oc = None /\
      radio_declaration_type (oc_form oc) = detect_in_texts (map drawn_text pages) /\
      (radio_declaration_type (oc_form oc) = of_ascii "company" \/
       radio_declaration_type (oc_form oc) = of_ascii "foreigner" \/
       radio_declaration_type (oc_form oc) = of_ascii "israeli")
  | _ =>
      (exists e, oc_raised oc = Some e) /\
      radio_declaration_type (oc_form oc) = radio_declaration_type filled_form
  end.
Proof.
  split; [lookup_by_computation |].
  apply (ask_for_file_chosen drawn_text input_path filled_form marker_desktop).
  discriminate.
Defined.

Lemma process_hebrew_text_twice_witness :
  process_hebrew_text (process_hebrew_text line1 sample_date) sample_date = line1.
Proof.
  apply (process_hebrew_text_twice line1 sample_date).
  right. split; apply py_in_not_occurs; vm_compute; reflexivity.
Defined.

(** ** The string primitives on small inputs *)

Example process_hebrew_text_keeps_date :
  process_hebrew_text (of_ascii "on 03-11-2026 ok") (of_ascii "03-11-2026")
    = of_ascii "ko 03-11-2026 no".
Proof. vm_compute. reflexivity. Qed.

Example process_hebrew_text_overlapping_dates :
  process_hebrew_text (of_ascii "bababa") (of_ascii "baba") = of_ascii "babaab" /\
  reverse_preserving_date (of_ascii "bababa") (of_ascii "baba") = of_ascii "babaab".
Proof. split; vm_compute; reflexivity. Qed.

Example py_replace_empty_old :
  py_replace (of_ascii "abc") [] (of_ascii "-") = of_ascii "-a-b-c-".
Proof. vm_compute. reflexivity. Qed.

Example os_path_join_cases :
  os_path_join (of_ascii "out") (of_ascii "f.pdf") = of_ascii "out/f.pdf" /\
  os_path_join (of_ascii "out/") (of_ascii "f.pdf") = of_ascii "out/f.pdf" /\
  os_path_join [] (of_ascii "f.pdf") = of_ascii "f.pdf".
Proof. repeat split; vm_compute; reflexivity. Qed.

Example py_lower_ascii :
  py_lower caseless_lower (of_ascii "FeMale") = of_ascii "female".
Proof. vm_compute. reflexivity. Qed.

Example detect_in_texts_same_page :
  detect_in_texts [foreigner_marker ++ company_marker] = of_ascii "company".
Proof. vm_compute. reflexivity. Qed.
